(** * upstream-patch-review: the dashboard's view/state engine

    A shallow embedding of the two deployments of the dashboard,
    [src/app.js] (records addressed by change id, keys are paths ending
    in [_home.html]) and [src/unnamed/part_000] (records addressed by git
    hash), followed by the properties of the specification that were
    checked against them.

    Conventions of the embedding.
    - A JavaScript string is a [string]: one [ascii] per UTF-16 code unit,
      so the model covers the code units U+0000..U+00FF.  On that range
      [trim], [toLowerCase], [startsWith], ... below are the ECMAScript
      functions.
    - A parsed JSON object is an association list in property enumeration
      order; a member read takes the first binding of the key.
    - The host (engine and browser) functions that the sources call but
      that are not worth re-implementing are the fields of [Host]. *)

From Stdlib Require Import List Bool Arith ZArith QArith Qround Lqa String Ascii Lia.
From Stdlib Require Import Sorted Permutation.
From Stdlib Require DecimalString.
Import ListNotations.

Local Close Scope Q_scope.
Local Open Scope list_scope.
Local Open Scope string_scope.

(* ================================================================== *)
(** * Part I: the embedding *)
(* ================================================================== *)

(** ** ECMAScript strings *)

(** The double quote, written by its code so that markup can be quoted. *)
Definition dq : string := String "034"%char EmptyString.

(** The line feed of a multi-line template literal. *)
Definition nl : string := String "010"%char EmptyString.

(** [n] spaces: the indentation inside a template literal. *)
Fixpoint spaces (n : nat) : string :=
  match n with
  | O => EmptyString
  | S k => String " "%char (spaces k)
  end.

(** [s.startsWith(p)] *)
Definition startsWith (s p : string) : bool := String.prefix p s.

(** [s.substring(n)] *)
Fixpoint substring_from (n : nat) (s : string) : string :=
  match n, s with
  | O, _ => s
  | S k, EmptyString => EmptyString
  | S k, String _ t => substring_from k t
  end.

(** [s.substring(0, n)] *)
Fixpoint substring_to (n : nat) (s : string) : string :=
  match n, s with
  | O, _ => EmptyString
  | S k, EmptyString => EmptyString
  | S k, String c t => String c (substring_to k t)
  end.

(** [s.endsWith(p)]: [p] is no longer than [s] and the last [p.length]
    code units of [s] are [p]. *)
Definition endsWith (s p : string) : bool :=
  (String.length p <=? String.length s)%nat
  && String.eqb (substring_from (String.length s - String.length p) s) p.

(** [s.includes(p)] *)
Fixpoint includes (s p : string) : bool :=
  String.prefix p s
  || match s with
     | EmptyString => false
     | String _ t => includes t p
     end.

(** WhiteSpace and LineTerminator code units below U+0100: TAB, LF, VT, FF,
    CR, SP and NBSP. *)
Definition isWhiteSpace (c : ascii) : bool :=
  let n := nat_of_ascii c in
  ((9 <=? n) && (n <=? 13) || (n =? 32) || (n =? 160))%nat.

(** [s.trimStart()] *)
Fixpoint trimStart (s : string) : string :=
  match s with
  | EmptyString => EmptyString
  | String c t => if isWhiteSpace c then trimStart t else s
  end.

(** [s.trimEnd()] *)
Fixpoint trimEnd (s : string) : string :=
  match s with
  | EmptyString => EmptyString
  | String c t =>
      match trimEnd t with
      | EmptyString => if isWhiteSpace c then EmptyString else String c EmptyString
      | t' => String c t'
      end
  end.

(** [s.trim()] *)
Definition trim (s : string) : string := trimEnd (trimStart s).

(** Lower-casing of one code unit below U+0100: A-Z, and the Latin-1
    capitals U+00C0..U+00DE except the multiplication sign U+00D7. *)
Definition lowerChar (c : ascii) : ascii :=
  let n := nat_of_ascii c in
  if ((65 <=? n) && (n <=? 90))%nat then ascii_of_nat (n + 32)
  else if ((192 <=? n) && (n <=? 222) && negb (n =? 215))%nat
       then ascii_of_nat (n + 32)
       else c.

Fixpoint mapString (f : ascii -> ascii) (s : string) : string :=
  match s with
  | EmptyString => EmptyString
  | String c t => String (f c) (mapString f t)
  end.

(** [s.toLowerCase()] *)
Definition toLowerCase (s : string) : string := mapString lowerChar s.

(** [s.replace(/ /g, "_")] *)
Definition replaceSpaces (s : string) : string :=
  mapString (fun c => if Ascii.eqb c " "%char then "_"%char else c) s.

(** [s.replace(/^p/, "")] for a pattern [p] without metacharacters: the
    match can only sit at the start of [s]. *)
Definition removeAtStart (p s : string) : string :=
  if startsWith s p then substring_from (String.length p) s else s.

(** [s.replace(/p$/, "")] for a pattern [p] without metacharacters: the
    match can only sit at the end of [s]. *)
Definition removeAtEnd (p s : string) : string :=
  if endsWith s p then substring_to (String.length s - String.length p) s else s.

(** ** ECMAScript numbers *)

(** An IEEE double as far as the sources look at it: not-a-number, the two
    infinities, or a finite value given by the rational it denotes
    (the two zeros are not told apart; nothing in the sources does). *)
Inductive Double : Type :=
| NaN
| NegInf
| Fin (q : Q)
| PosInf.

(** [x - y].  For finite operands the exact difference stands for the
    rounded one: the sources only look at its sign, and the difference of
    two doubles is zero only if they are equal. *)
Definition Double_sub (x y : Double) : Double :=
  match x, y with
  | NaN, _ | _, NaN => NaN
  | PosInf, PosInf | NegInf, NegInf => NaN
  | PosInf, _ | _, NegInf => PosInf
  | NegInf, _ | _, PosInf => NegInf
  | Fin a, Fin b => Fin (a - b)
  end.

(** [x <= y] on doubles; false as soon as one side is NaN. *)
Definition Double_leb (x y : Double) : bool :=
  match x, y with
  | NaN, _ | _, NaN => false
  | NegInf, _ | _, PosInf => true
  | _, NegInf | PosInf, _ => false
  | Fin a, Fin b => Qle_bool a b
  end.

Definition isNaN (x : Double) : bool :=
  match x with NaN => true | _ => false end.

(** ** The host *)

(** What the engine and the browser supply.
    - [Number]: the numbers a parsed JSON document holds, with [ToString]
      and [ToBoolean] on them;
    - [binary64]: the double nearest to the value of a decimal literal
      (it may overflow to an infinity);
    - [toLocaleString t]: [new Date(t * 1000).toLocaleString("en-US", o)]
      for the fixed options [o] of [showHome]. *)
Class Host : Type := {
  Number : Type;
  Number_toString : Number -> string;
  Number_toBoolean : Number -> bool;
  binary64 : Q -> Double;
  toLocaleString : Double -> string
}.

Section Embedding.
Context {host : Host}.

(** ** JSON values and objects *)

(** A field value of a Record: a string, a number or a boolean. *)
Inductive Value : Type :=
| VStr (s : string)
| VNum (n : Number)
| VBool (b : bool).

(** A Record: its fields in enumeration order ([for ... in]). *)
Definition Record : Type := list (string * Value).

(** The metadata store: its keys in [Object.keys] order. *)
Definition Store : Type := list (string * Record).

(** The first binding of [k], if any. *)
Fixpoint assoc {A : Type} (k : string) (o : list (string * A)) : option A :=
  match o with
  | [] => None
  | (k', v) :: rest => if String.eqb k' k then Some v else assoc k rest
  end.

(** [Object.keys(o)] *)
Definition keys {A : Type} (o : list (string * A)) : list string := map fst o.

(** [data[k]] and [data.k] on a Record; [None] is [undefined].  (Every name
    the sources read from a Record is either one of its own keys or is not
    a property of [Object.prototype].) *)
Definition get (data : Record) (k : string) : option Value := assoc k data.

(** The properties a parsed JSON object inherits from [Object.prototype]. *)
Definition Object_prototype : list string :=
  [ "constructor"; "__defineGetter__"; "__defineSetter__"; "hasOwnProperty";
    "__lookupGetter__"; "__lookupSetter__"; "isPrototypeOf";
    "propertyIsEnumerable"; "toString"; "valueOf"; "__proto__";
    "toLocaleString" ].

(** What [this.metadata[k]] evaluates to: a Record of the store, a built-in
    found on the prototype chain, or [undefined]. *)
Inductive Member : Type :=
| Own (data : Record)
| Inherited
| Undefined.

Definition member (m : Store) (k : string) : Member :=
  match assoc k m with
  | Some data => Own data
  | None =>
      if existsb (String.eqb k) Object_prototype then Inherited else Undefined
  end.

(** [ToBoolean] of a member read: objects and functions are truthy. *)
Definition Member_truthy (x : Member) : bool :=
  match x with
  | Own _ | Inherited => true
  | Undefined => false
  end.

(** The fields that member reads and [for ... in] find on the value: a
    built-in has none of the names the sources read and nothing
    enumerable. *)
Definition fields (x : Member) : Record :=
  match x with
  | Own data => data
  | Inherited | Undefined => []
  end.

(** [ToString] *)
Definition ToString (v : Value) : string :=
  match v with
  | VStr s => s
  | VNum n => Number_toString n
  | VBool true => "true"
  | VBool false => "false"
  end.

(** [ToString] of a possibly undefined value, as in a template literal. *)
Definition interpolate (x : option Value) : string :=
  match x with
  | Some v => ToString v
  | None => "undefined"
  end.

(** [ToBoolean] *)
Definition truthy (v : Value) : bool :=
  match v with
  | VStr s => negb (String.eqb s "")
  | VNum n => Number_toBoolean n
  | VBool b => b
  end.

Definition truthy_opt (x : option Value) : bool :=
  match x with
  | Some v => truthy v
  | None => false
  end.

(** [x || d] *)
Definition or_else (x : option Value) (d : Value) : Value :=
  match x with
  | Some v => if truthy v then v else d
  | None => d
  end.

(** [x === s] for a string [s] *)
Definition strict_eq_string (x : option Value) (s : string) : bool :=
  match x with
  | Some (VStr t) => String.eqb t s
  | _ => false
  end.

(** [x === true] *)
Definition strict_eq_true (x : option Value) : bool :=
  match x with
  | Some (VBool true) => true
  | _ => false
  end.

(** ** parseInt and parseFloat *)

(** The value of a digit in radix [R], for [R] 10 or 16. *)
Definition digit (R : Z) (c : ascii) : option Z :=
  let n := Z.of_nat (nat_of_ascii c) in
  let d := (if (48 <=? n) && (n <=? 57) then Some (n - 48)
            else if (97 <=? n) && (n <=? 102) then Some (n - 87)
            else if (65 <=? n) && (n <=? 70) then Some (n - 55)
            else None)%Z in
  match d with
  | Some v => if (v <? R)%Z then Some v else None
  | None => None
  end.

(** The longest prefix of radix-[R] digits of [s], read as an integer on
    top of [acc]; [None] while no digit has been read. *)
Fixpoint digitsPrefix (R : Z) (s : string) (acc : option Z) : option Z :=
  match s with
  | EmptyString => acc
  | String c t =>
      match digit R c with
      | Some d =>
          digitsPrefix R t
            (Some (R * match acc with Some a => a | None => 0 end + d)%Z)
      | None => acc
      end
  end.

(** A leading sign: whether it is a minus, and the rest. *)
Definition stripSign (s : string) : bool * string :=
  match s with
  | String "-"%char t => (true, t)
  | String "+"%char t => (false, t)
  | _ => (false, s)
  end.

(** [parseInt(s)] without a radix; [None] is NaN.  The integer is kept
    exact: the sources only compare it with 0, and rounding to a double
    maps no non-zero integer to 0. *)
Definition parseIntString (s : string) : option Z :=
  let (neg, s1) := stripSign (trimStart s) in
  let (R, s2) :=
    if startsWith s1 "0x" || startsWith s1 "0X"
    then (16%Z, substring_from 2 s1) else (10%Z, s1) in
  match digitsPrefix R s2 None with
  | Some n => Some (if neg then (- n)%Z else n)
  | None => None
  end.

(** [parseInt(v)]: the argument goes through [ToString] first. *)
Definition parseInt (x : option Value) : option Z :=
  parseIntString (interpolate x).

(** The longest prefix of decimal digits, and the rest. *)
Fixpoint takeDigits (s : string) : string * string :=
  match s with
  | EmptyString => (EmptyString, EmptyString)
  | String c t =>
      match digit 10 c with
      | Some _ => let (ds, rest) := takeDigits t in (String c ds, rest)
      | None => (EmptyString, s)
      end
  end.

(** The value of a string of decimal digits. *)
Definition decimal (ds : string) : Z :=
  match digitsPrefix 10 ds None with
  | Some n => n
  | None => 0%Z
  end.

(** ExponentPart, when [s] starts with a well-formed one; 0 otherwise. *)
Definition exponentPart (s : string) : Z :=
  match s with
  | String c t =>
      if Ascii.eqb c "e"%char || Ascii.eqb c "E"%char then
        let (neg, t1) := stripSign t in
        let (ds, _) := takeDigits t1 in
        if String.eqb ds "" then 0%Z
        else if neg then (- decimal ds)%Z else decimal ds
      else 0%Z
  | EmptyString => 0%Z
  end.

(** [m * 10^k] *)
Definition scale10 (m k : Z) : Q :=
  if (0 <=? k)%Z then inject_Z (m * 10 ^ k)
  else Qmake m (Z.to_pos (10 ^ (- k))).

(** [parseFloat(s)]: leading white space, a sign, then the longest prefix
    that is a StrDecimalLiteral, rounded by the host. *)
Definition parseFloatString (s : string) : Double :=
  let (neg, s1) := stripSign (trimStart s) in
  if startsWith s1 "Infinity" then (if neg then NegInf else PosInf)
  else
    let (ip, r1) := takeDigits s1 in
    let (fp, r2) :=
      match r1 with
      | String "."%char t => takeDigits t
      | _ => (EmptyString, r1)
      end in
    if String.eqb ip "" && String.eqb fp "" then NaN
    else
      let m := decimal (ip ++ fp) in
      let k := (exponentPart r2 - Z.of_nat (String.length fp))%Z in
      binary64 (scale10 (if neg then (- m)%Z else m) k).

(** [parseFloat(v)]: the argument goes through [ToString] first. *)
Definition parseFloat (x : option Value) : Double :=
  parseFloatString (interpolate x).

(** [parseFloat(x || 0)]; [parseFloat(0)] is 0. *)
Definition parseFloat_or_0 (x : option Value) : Double :=
  if truthy_opt x then parseFloat x else Fin 0.

(** ** Escaping (identical in both files) *)

(** [s] between double quotes: an attribute value in a template. *)
Definition q (s : string) : string := dq ++ s ++ dq.

(** What [innerHTML] gives back for a text node holding [s]: the HTML
    fragment serialisation escapes the ampersand, the no-break space and
    the two angle brackets of text, and nothing else. *)
Fixpoint serializeText (s : string) : string :=
  match s with
  | EmptyString => EmptyString
  | String c t =>
      (if Ascii.eqb c "&"%char then "&amp;"
       else if Ascii.eqb c "160"%char then "&nbsp;"
       else if Ascii.eqb c "<"%char then "&lt;"
       else if Ascii.eqb c ">"%char then "&gt;"
       else String c EmptyString) ++ serializeText t
  end.

(** [escapeHtml(text)]: [""] for [undefined], else the serialisation of a
    [div] whose text content is [text.toString()]. *)
Definition escapeHtml (text : option Value) : string :=
  match text with
  | None => ""
  | Some v => serializeText (ToString v)
  end.

(** A string argument of [escapeHtml]. *)
Definition str (s : string) : option Value := Some (VStr s).

(** ** Outcomes and summaries (identical in both files) *)

(** An element of [results] in [showHome]. *)
Record Result : Type := {
  name : string;
  rc : Z;
  enforced : bool
}.

(** An element of [results] in [showTestDetail]: the same three
    properties and three more. *)
Record Outcome : Type := {
  result :> Result;
  runtime : Value;
  description : Value;
  logPath : string
}.

Record Summary : Type := {
  text : string;
  color : string
}.

(** [isNaN(rc) ? -1 : rc] *)
Definition rc_or_sentinel (parsed : option Z) : Z :=
  match parsed with
  | Some n => n
  | None => (-1)%Z
  end.

(** [data[enforcedKey] === "True" || data[enforcedKey] === true] *)
Definition enforced_flag (x : option Value) : bool :=
  strict_eq_string x "True" || strict_eq_true x.

(** The loop that fills [results] in [showHome]. *)
Definition homeResults (data : Record) : list Result :=
  flat_map
    (fun key =>
       if startsWith key "result" then
         let name := substring_from (String.length "result") key in
         let rc := parseInt (get data key) in
         let enforcedKey := "enforced" ++ name in
         let enforced := enforced_flag (get data enforcedKey) in
         [ {| name := name; rc := rc_or_sentinel rc; enforced := enforced |} ]
       else [])
    (keys data).

(** [summarize] of [showHome]. *)
Definition summarize (results : list Result) : Summary :=
  if (List.length results =? 0)%nat then {| text := "N/A"; color := "gray" |}
  else if forallb (fun r => (rc r =? 0)%Z) results
       then {| text := "PASS"; color := "green" |}
       else {| text := "FAIL"; color := "red" |}.

(** ** Application state *)

(** The [app] object, the location fragment and the markup of the
    [#content] element. *)
Record App : Type := {
  metadata : option Store;
  currentView : string;
  hash : string;
  content : string
}.

Definition set_content (html : string) (st : App) : App :=
  {| metadata := metadata st; currentView := currentView st;
     hash := hash st; content := html |}.

Definition set_currentView (view : string) (st : App) : App :=
  {| metadata := metadata st; currentView := view;
     hash := hash st; content := content st |}.

(** [window.location.hash = fragment]; reading it back gives [""] for the
    empty fragment and ["#" + fragment] otherwise. *)
Definition set_hash (fragment : string) (st : App) : App :=
  {| metadata := metadata st; currentView := currentView st;
     hash := if String.eqb fragment "" then "" else "#" ++ fragment;
     content := content st |}.

(** [showError(message)] *)
Definition error_html (message : string) : string :=
  "<div class=" ++ q "error" ++ ">" ++ escapeHtml (str message) ++ "</div>".

Definition showError (message : string) (st : App) : App :=
  set_content (error_html message) st.

(** How [fetch] and the reading of the body ended. *)
Inductive Fetched : Type :=
| Body (text : string)
| NotOk
| Threw (message : string).

(** [showStatus()], once the fetch of [status.txt] has settled as
    [response]; the "Loading status..." markup shown meanwhile is
    overwritten in every case. *)
Definition showStatus (response : Fetched) (st : App) : App :=
  let st := set_hash "status" (set_currentView "status" st) in
  let st :=
    set_content ("<div class=" ++ q "loading" ++ ">Loading status...</div>") st in
  match response with
  | Body statusText =>
      set_content ("<pre>" ++ escapeHtml (str statusText) ++ "</pre>") st
  | NotOk =>
      showError ("Failed to load status: " ++ "Failed to load status") st
  | Threw message => showError ("Failed to load status: " ++ message) st
  end.

(** ** The results table (identical in both files) *)

(** One line of a template literal: indentation, text, line feed. *)
Definition line (indent : nat) (s : string) : string := spaces indent ++ s ++ nl.

Definition resultRow (r : Outcome) : string :=
  let status := if (rc r =? 0)%Z then "PASS" else "FAIL" in
  let color := if (rc r =? 0)%Z then "green" else "red" in
  let testType := if enforced r then "Enforced" else "Optional" in
  let description :=
    or_else (Some (description r)) (VStr ("Job: " ++ name r)) in
  let runtime := or_else (Some (runtime r)) (VStr "N/A") in
  nl
  ++ line 16 "<tr>"
  ++ line 20 ("<td><a href=" ++ q "#" ++ " onclick=" ++ dq ++ "app.showLog('"
              ++ escapeHtml (str (logPath r)) ++ "', '"
              ++ escapeHtml (str (name r)) ++ "'); return false;" ++ dq ++ ">"
              ++ escapeHtml (str (name r)) ++ "</a></td>")
  ++ line 20 ("<td>" ++ escapeHtml (Some description) ++ "</td>")
  ++ line 20 ("<td>" ++ testType ++ "</td>")
  ++ line 20 ("<td>" ++ escapeHtml (Some runtime) ++ "</td>")
  ++ line 20 ("<td style=" ++ q ("color:" ++ color ++ ";") ++ ">" ++ status ++ "</td>")
  ++ line 16 "</tr>"
  ++ spaces 12.

Definition renderResultsTable (title : string) (results : list Outcome) : string :=
  let captionHtml :=
    if String.eqb title "" then ""
    else "<caption>" ++ escapeHtml (str title) ++ "</caption>" in
  nl
  ++ line 12 ("<table class=" ++ q "test-results-table" ++ " style="
              ++ q "margin-bottom: 2em;" ++ ">")
  ++ line 16 captionHtml
  ++ line 16 "<colgroup>"
  ++ line 20 ("<col style=" ++ q "width: 30%;" ++ ">")
  ++ line 20 ("<col style=" ++ q "width: 30%;" ++ ">")
  ++ line 20 ("<col style=" ++ q "width: 15%;" ++ ">")
  ++ line 20 ("<col style=" ++ q "width: 15%;" ++ ">")
  ++ line 20 ("<col style=" ++ q "width: 10%;" ++ ">")
  ++ line 16 "</colgroup>"
  ++ line 16 "<thead>"
  ++ line 20 "<tr>"
  ++ line 24 "<th>Test</th>"
  ++ line 24 "<th>Description</th>"
  ++ line 24 "<th>Type</th>"
  ++ line 24 "<th>Runtime</th>"
  ++ line 24 "<th>Status</th>"
  ++ line 20 "</tr>"
  ++ line 16 "</thead>"
  ++ line 16 "<tbody>"
  ++ spaces 8
  ++ String.concat "" (map resultRow results)
  ++ nl
  ++ line 16 "</tbody>"
  ++ line 12 "</table>"
  ++ spaces 8.

(** The split view that [showTestDetail] writes around the table. *)
Definition splitView (leftHtml : string) : string :=
  let rightHtml :=
    "<div class=" ++ q "right-panel empty" ++ " id=" ++ q "logPanel"
    ++ ">Select a test to view logs</div>" in
  nl
  ++ line 12 ("<div class=" ++ q "split-view" ++ ">")
  ++ line 16 ("<div class=" ++ q "left-panel" ++ ">" ++ leftHtml ++ "</div>")
  ++ line 16 rightHtml
  ++ line 12 "</div>"
  ++ spaces 8.

(** A radio input of the status filter, with the handler it calls. *)
Definition radioLabel (group handler value label : string) (checked : bool) : string :=
  "<label><input type=" ++ q "radio" ++ " name=" ++ q group ++ " onchange="
  ++ q ("app." ++ handler ++ "()") ++ " value=" ++ q value
  ++ (if checked then " checked" else "") ++ "> " ++ label ++ "</label>".

(** The five column widths and eight column titles of the home table. *)
Definition homeTableHead : string :=
  line 12 "<table>"
  ++ line 16 "<colgroup>"
  ++ line 20 ("<col style=" ++ q "width: 10%" ++ ">")
  ++ line 20 ("<col style=" ++ q "width: 40%" ++ ">")
  ++ line 20 ("<col style=" ++ q "width: 20%" ++ ">")
  ++ line 20 ("<col style=" ++ q "width: 10%" ++ ">")
  ++ line 20 ("<col style=" ++ q "width: 20%" ++ ">")
  ++ line 16 "</colgroup>"
  ++ line 16 "<thead>"
  ++ line 20 "<tr>"
  ++ line 24 "<th>Tests</th>"
  ++ line 24 "<th>Subject</th>"
  ++ line 24 "<th>Hash</th>"
  ++ line 24 "<th>Change ID</th>"
  ++ line 24 "<th>Time</th>"
  ++ line 24 "<th>Runtime</th>"
  ++ line 24 "<th>Enforced</th>"
  ++ line 24 "<th>Optional</th>"
  ++ line 20 "</tr>"
  ++ line 16 "</thead>"
  ++ line 16 "<tbody>"
  ++ spaces 8.

Definition homeTableFoot : string :=
  nl ++ line 16 "</tbody>" ++ line 12 "</table>" ++ spaces 8.

(** ** Array.prototype.sort *)

(** Whether the comparator's answer puts the second argument first: a
    positive number.  NaN counts as 0 (SortCompare). *)
Definition positive (v : Double) : bool :=
  match v with
  | PosInf => true
  | Fin x => negb (Qle_bool x 0)
  | NaN | NegInf => false
  end.

(** [x], which came before all of [l], put into the sorted [l]: it moves
    past the elements the comparator puts strictly before it. *)
Fixpoint insert {A : Type} (comparefn : A -> A -> Double) (x : A) (l : list A) : list A :=
  match l with
  | [] => [x]
  | y :: rest =>
      if positive (comparefn x y) then y :: insert comparefn x rest
      else x :: l
  end.

(** [l.sort(comparefn)].  The language requires a stable sort and fixes
    the result for a comparator that is a consistent ordering; a stable
    insertion sort stands for it. *)
Definition sort {A : Type} (comparefn : A -> A -> Double) (l : list A) : list A :=
  fold_right (insert comparefn) [] l.

(** ** The rendered page as the filters see it *)

(** The link between the markup in [content] and the element tree is the
    browser's HTML parser, which is not part of the model: the filters are
    defined on any tree of the shape they query. *)

(** An [input type="radio"]. *)
Record Radio : Type := {
  group : string;          (* its [name] attribute *)
  value : string;
  checked : bool
}.

(** A [tr] of a table body: the text content of its cells, and its
    class list (an ordered set of tokens). *)
Record Tr : Type := {
  cells : list string;
  classList : list string
}.

Record Table : Type := {
  className : list string;
  rows : list Tr
}.

(** The elements of the document in tree order. *)
Record Document : Type := {
  radios : list Radio;
  tables : list Table
}.

Definition has_token (token : string) (l : list string) : bool :=
  existsb (String.eqb token) l.

(** [classList.add(token)] *)
Definition classList_add (token : string) (row : Tr) : Tr :=
  {| cells := cells row;
     classList := if has_token token (classList row) then classList row
                  else (classList row ++ [token])%list |}.

(** [classList.remove(token)] *)
Definition classList_remove (token : string) (row : Tr) : Tr :=
  {| cells := cells row;
     classList := filter (fun t => negb (String.eqb token t)) (classList row) |}.

(** The value of the first checked radio named [name], or ["All"]:
    [getSelectedFilter], [getSelectedEnforcedFilter] and
    [getSelectedOptionalFilter] are this loop over three names. *)
Definition getSelected (name : string) (doc : Document) : string :=
  match find checked (filter (fun r => String.eqb (group r) name) (radios doc)) with
  | Some r => value r
  | None => "All"
  end.

Definition getSelectedFilter : Document -> string := getSelected "statusfilter".
Definition getSelectedEnforcedFilter : Document -> string := getSelected "enforcedfilter".
Definition getSelectedOptionalFilter : Document -> string := getSelected "optionalfilter".

(** The trimmed text of [td:nth-child(n)], or [""] without such a cell. *)
Definition cellText (n : nat) (row : Tr) : string :=
  match nth_error (cells row) (n - 1) with
  | Some statusCell => trim statusCell
  | None => ""
  end.

Definition getRowStatus : Tr -> string := cellText 5.
Definition getRowEnforcedStatus : Tr -> string := cellText 7.
Definition getRowOptionalStatus : Tr -> string := cellText 8.

(** [f] applied to the first element that satisfies [p], if there is one:
    [querySelector] followed by an update in place. *)
Fixpoint update_first {A : Type} (p : A -> bool) (f : A -> A) (l : list A) : list A :=
  match l with
  | [] => []
  | x :: rest => if p x then f x :: rest else x :: update_first p f rest
  end.

Definition with_rows (f : Tr -> Tr) (table : Table) : Table :=
  {| className := className table; rows := map f (rows table) |}.

(** [updateFilter()] (identical in both files). *)
Definition updateFilter (st : App) (doc : Document) : App * Document :=
  let filterValue := getSelectedFilter doc in
  (st,
   {| radios := radios doc;
      tables :=
        update_first
          (fun table => has_token "test-results-table" (className table))
          (with_rows
             (fun row =>
                let status := getRowStatus row in
                if String.eqb filterValue "All" || String.eqb status filterValue
                then classList_remove "filtered" row
                else classList_add "filtered" row))
          (tables doc) |}).

End Embedding.

(** ** [src/app.js]: records addressed by change id *)

Module Indirect.
Section Embedding.
Context {host : Host}.

(** An element of [homeFiles]. *)
Record Item : Type := {
  path : string;
  data : Record
}.

(** The four required fields, read as a condition. *)
Definition complete (item : Item) : bool :=
  truthy_opt (get (data item) "patch_revision")
  && truthy_opt (get (data item) "change_id")
  && truthy_opt (get (data item) "subject")
  && truthy_opt (get (data item) "time_stamp").

(** The comparator of [homeFiles.sort]. *)
Definition newestFirst (a b : Item) : Double :=
  Double_sub (parseFloat_or_0 (get (data b) "time_stamp"))
             (parseFloat_or_0 (get (data a) "time_stamp")).

(** [homeFiles] of [showHome], sorted. *)
Definition homeFiles (m : Store) : list Item :=
  sort newestFirst
    (filter complete
       (map (fun path => {| path := path; data := fields (member m path) |})
          (filter (fun path => endsWith path "_home.html") (keys m)))).

(** The body of the loop over [homeFiles]: one table row. *)
Definition homeRow (item : Item) : string :=
  let data := data item in
  let timestamp := parseFloat (get data "time_stamp") in
  let readable := toLocaleString timestamp in
  let results := homeResults data in
  let enforcedResults := filter (fun r => enforced r) results in
  let optionalResults := filter (fun r => negb (enforced r)) results in
  let enforcedSummary := summarize enforcedResults in
  let optionalSummary := summarize optionalResults in
  nl
  ++ line 16 "<tr>"
  ++ line 20 ("<td><a href=" ++ q ("#review/" ++ escapeHtml (get data "change_id"))
              ++ ">Link</a></td>")
  ++ line 20 ("<td>" ++ escapeHtml (get data "subject") ++ "</td>")
  ++ line 20 ("<td><a href="
              ++ q ("https://review.whamcloud.com/plugins/gitiles/fs/lustre-release/+/"
                    ++ interpolate (get data "patch_revision"))
              ++ " target=" ++ q "_blank" ++ ">"
              ++ escapeHtml (get data "patch_revision") ++ "</a></td>")
  ++ line 20 ("<td><a href="
              ++ q ("https://review.whamcloud.com/c/fs/lustre-release/+/"
                    ++ interpolate (get data "change_id"))
              ++ " target=" ++ q "_blank" ++ ">"
              ++ escapeHtml (get data "change_id") ++ "</a></td>")
  ++ line 20 ("<td>" ++ readable ++ "</td>")
  ++ line 20 ("<td>" ++ escapeHtml (Some (or_else (get data "total_runtime") (VStr "N/A")))
              ++ "</td>")
  ++ line 20 ("<td style=" ++ q ("color:" ++ color enforcedSummary ++ ";") ++ ">"
              ++ text enforcedSummary ++ "</td>")
  ++ line 20 ("<td style=" ++ q ("color:" ++ color optionalSummary ++ ";") ++ ">"
              ++ text optionalSummary ++ "</td>")
  ++ line 16 "</tr>"
  ++ spaces 12.

Definition homeHtml (m : Store) : string :=
  nl
  ++ line 12 "<h1>Testing Status</h1>"
  ++ homeTableHead
  ++ String.concat "" (map homeRow (homeFiles m))
  ++ homeTableFoot.

(** [showHome()] *)
Definition showHome (st : App) : App :=
  let st := set_hash "" (set_currentView "home" st) in
  match metadata st with
  | None => showError "No metadata available" st
  | Some m => set_content (homeHtml m) st
  end.

(** The key-derived prefix of a log path: the installation prefix is
    removed from the start of [homePath], then [_home.html] from the end. *)
Definition logPrefix (homePath : string) : string :=
  let webPath :=
    removeAtStart "/var/www/ci-lustre/upstream-patch-review/" homePath in
  let changeId := removeAtEnd "_home.html" webPath in
  changeId.

(** The loop that fills [results] in [showTestDetail]. *)
Definition detailResults (homePath : string) (data : Record) : list Outcome :=
  flat_map
    (fun key =>
       if startsWith key "result" then
         let name := substring_from (String.length "result") key in
         let rc := parseInt (get data key) in
         let enforcedKey := "enforced" ++ name in
         let enforced := enforced_flag (get data enforcedKey) in
         let runtimeKey := "runtime" ++ name in
         let runtime := or_else (get data runtimeKey) (VStr "N/A") in
         let descriptionKey := "description" ++ name in
         let description :=
           or_else (get data descriptionKey) (VStr ("Job: " ++ name)) in
         let logPath :=
           logPrefix homePath ++ "_" ++ toLowerCase (replaceSpaces name) ++ ".log" in
         [ {| result := {| name := name; rc := rc_or_sentinel rc;
                           enforced := enforced |};
              runtime := runtime; description := description;
              logPath := logPath |} ]
       else [])
    (keys data).

(** The arrow U+2190 of the back link; static markup that no function of
    the model inspects, kept as the bytes of the source file. *)
Definition backArrow : string := "←".

Definition detailHtml (subject : Value) (results : list Outcome) : string :=
  let leftHtml :=
    nl
    ++ line 12 ("<a href=" ++ q "#" ++ " onclick="
                ++ q "app.showHome(); return false;" ++ " class=" ++ q "back-link"
                ++ ">" ++ backArrow ++ " Back to Home</a>")
    ++ line 12 ("<h1>" ++ escapeHtml (Some subject) ++ "</h1>")
    ++ line 12 ("<div id=" ++ q "filters" ++ ">")
    ++ line 16 "Filter by:"
    ++ line 16 (radioLabel "statusfilter" "updateFilter" "PASS" "Passed" false)
    ++ line 16 (radioLabel "statusfilter" "updateFilter" "FAIL" "Failed" false)
    ++ line 16 (radioLabel "statusfilter" "updateFilter" "All" "All" true)
    ++ line 12 "</div>"
    ++ spaces 8 in
  splitView (leftHtml ++ renderResultsTable "" results).

(** [showTestDetail(homePath)].  [None] is the TypeError of reading a
    member of a null [this.metadata]; no caller gets there. *)
Definition showTestDetail (homePath : string) (st : App) : option App :=
  let st := set_currentView "detail" st in
  match metadata st with
  | None => None
  | Some m =>
      let found := member m homePath in
      if negb (Member_truthy found) then Some (showError "Test data not found" st)
      else
        let data := fields found in
        let subject := or_else (get data "subject") (VStr "Unknown") in
        let results := detailResults homePath data in
        Some (set_content (detailHtml subject results) st)
  end.

(** The [filter] and [find] of [showReviewByChangeId]: the first key
    ending in [_home.html] whose Record has [change_id === changeId]. *)
Definition findHomeFile (m : Store) (changeId : string) : option string :=
  find
    (fun path =>
       let data := fields (member m path) in
       strict_eq_string (get data "change_id") changeId)
    (filter (fun path => endsWith path "_home.html") (keys m)).

(** [showReviewByChangeId(changeId)]; a null [this.metadata] is searched
    as the empty object. *)
Definition showReviewByChangeId (changeId : string) (st : App) : option App :=
  let homeFile :=
    findHomeFile (match metadata st with Some m => m | None => [] end) changeId in
  match homeFile with
  | Some homeFile =>
      if negb (String.eqb homeFile "") then showTestDetail homeFile st
      else Some (showError ("Review with change ID " ++ changeId ++ " not found") st)
  | None =>
      Some (showError ("Review with change ID " ++ changeId ++ " not found") st)
  end.

(** [handleRoute()]; [response] is how the fetch of [status.txt] ends if
    the route is the status page. *)
Definition handleRoute (response : Fetched) (st : App) : option App :=
  let hash := hash st in
  if startsWith hash "#review/" then
    let changeId := substring_from (String.length "#review/") hash in
    showReviewByChangeId changeId st
  else if String.eqb hash "#status" then Some (showStatus response st)
  else Some (showHome st).

End Embedding.
End Indirect.

(** ** [src/unnamed/part_000]: records addressed by git hash *)

Module Direct.
Section Embedding.
Context {host : Host}.

(** An element of [testRuns]. *)
Record Item : Type := {
  gitHash : string;
  data : Record
}.

(** The four required fields, read as a condition. *)
Definition complete (item : Item) : bool :=
  truthy_opt (get (data item) "patch_revision")
  && truthy_opt (get (data item) "change_id")
  && truthy_opt (get (data item) "subject")
  && truthy_opt (get (data item) "time_stamp").

(** The comparator of [testRuns.sort]. *)
Definition newestFirst (a b : Item) : Double :=
  Double_sub (parseFloat_or_0 (get (data b) "time_stamp"))
             (parseFloat_or_0 (get (data a) "time_stamp")).

(** [testRuns] of [showHome], sorted. *)
Definition testRuns (m : Store) : list Item :=
  sort newestFirst
    (filter complete
       (map (fun gitHash => {| gitHash := gitHash; data := fields (member m gitHash) |})
          (keys m))).

(** The body of the loop over [testRuns]: one table row. *)
Definition homeRow (item : Item) : string :=
  let data := data item in
  let gitHash := gitHash item in
  let timestamp := parseFloat (get data "time_stamp") in
  let readable := toLocaleString timestamp in
  let results := homeResults data in
  let enforcedResults := filter (fun r => enforced r) results in
  let optionalResults := filter (fun r => negb (enforced r)) results in
  let enforcedSummary := summarize enforcedResults in
  let optionalSummary := summarize optionalResults in
  nl
  ++ line 16 "<tr>"
  ++ line 20 ("<td><a href=" ++ q ("#review/" ++ escapeHtml (str gitHash))
              ++ ">Link</a></td>")
  ++ line 20 ("<td>" ++ escapeHtml (get data "subject") ++ "</td>")
  ++ line 20 ("<td><a href="
              ++ q ("https://review.whamcloud.com/plugins/gitiles/fs/lustre-release/+/"
                    ++ escapeHtml (str gitHash))
              ++ " target=" ++ q "_blank" ++ ">"
              ++ escapeHtml (str gitHash) ++ "</a></td>")
  ++ line 20 ("<td><a href="
              ++ q ("https://review.whamcloud.com/c/fs/lustre-release/+/"
                    ++ escapeHtml (get data "change_id"))
              ++ " target=" ++ q "_blank" ++ ">"
              ++ escapeHtml (get data "change_id") ++ "</a></td>")
  ++ line 20 ("<td>" ++ readable ++ "</td>")
  ++ line 20 ("<td>" ++ escapeHtml (Some (or_else (get data "total_runtime") (VStr "N/A")))
              ++ "</td>")
  ++ line 20 ("<td style=" ++ q ("color:" ++ color enforcedSummary ++ ";") ++ ">"
              ++ text enforcedSummary ++ "</td>")
  ++ line 20 ("<td style=" ++ q ("color:" ++ color optionalSummary ++ ";") ++ ">"
              ++ text optionalSummary ++ "</td>")
  ++ line 16 "</tr>"
  ++ spaces 12.

(** One of the two radio groups above the home table. *)
Definition homeFilterGroup (label group : string) : string :=
  line 16 "<div>"
  ++ line 20 ("Filter by (" ++ label ++ "):")
  ++ line 20 (radioLabel group "updateHomeFilter" "PASS" "Passed" false)
  ++ line 20 (radioLabel group "updateHomeFilter" "FAIL" "Failed" false)
  ++ line 20 (radioLabel group "updateHomeFilter" "All" "All" true)
  ++ line 16 "</div>".

Definition homeHtml (m : Store) : string :=
  nl
  ++ line 12 "<h1>Testing Status</h1>"
  ++ line 12 ("<div id=" ++ q "filters" ++ ">")
  ++ homeFilterGroup "Enforced" "enforcedfilter"
  ++ homeFilterGroup "Optional" "optionalfilter"
  ++ line 12 "</div>"
  ++ homeTableHead
  ++ String.concat "" (map homeRow (testRuns m))
  ++ homeTableFoot.

(** [showHome()] *)
Definition showHome (st : App) : App :=
  let st := set_hash "" (set_currentView "home" st) in
  match metadata st with
  | None => showError "No metadata available" st
  | Some m => set_content (homeHtml m) st
  end.

(** The loop that fills [results] in [showTestDetail]. *)
Definition detailResults (gitHash : string) (data : Record) : list Outcome :=
  flat_map
    (fun key =>
       if startsWith key "result" then
         let name := substring_from (String.length "result") key in
         let rc := parseInt (get data key) in
         let enforcedKey := "enforced" ++ name in
         let enforced := enforced_flag (get data enforcedKey) in
         let runtimeKey := "runtime" ++ name in
         let runtime := or_else (get data runtimeKey) (VStr "N/A") in
         let descriptionKey := "description" ++ name in
         let description :=
           or_else (get data descriptionKey) (VStr ("Job: " ++ name)) in
         let logPath :=
           gitHash ++ "_" ++ toLowerCase (replaceSpaces name) ++ ".log" in
         [ {| result := {| name := name; rc := rc_or_sentinel rc;
                           enforced := enforced |};
              runtime := runtime; description := description;
              logPath := logPath |} ]
       else [])
    (keys data).

(** The three code units before " Back to Home" in this file: U+201A
    (kept as the bytes of the source file), U+00DC and U+00EA. *)
Definition backArrow : string :=
  "‚" ++ String "220"%char (String "234"%char EmptyString).

Definition detailHtml (subject : Value) (results : list Outcome) : string :=
  let leftHtml :=
    nl
    ++ line 12 ("<a href=" ++ q "#" ++ " onclick="
                ++ q "app.showHome(); return false;" ++ " class=" ++ q "back-link"
                ++ ">" ++ backArrow ++ " Back to Home</a>")
    ++ line 12 ("<h1>" ++ escapeHtml (Some subject) ++ "</h1>")
    ++ line 12 ("<div id=" ++ q "filters" ++ ">")
    ++ line 16 "Filter by (Status):"
    ++ line 16 (radioLabel "statusfilter" "updateFilter" "PASS" "Passed" false)
    ++ line 16 (radioLabel "statusfilter" "updateFilter" "FAIL" "Failed" false)
    ++ line 16 (radioLabel "statusfilter" "updateFilter" "All" "All" true)
    ++ line 12 "</div>"
    ++ spaces 8 in
  splitView (leftHtml ++ renderResultsTable "" results).

(** [showTestDetail(gitHash)].  [None] is the TypeError of reading a
    member of a null [this.metadata]; no caller gets there. *)
Definition showTestDetail (gitHash : string) (st : App) : option App :=
  let st := set_currentView "detail" st in
  match metadata st with
  | None => None
  | Some m =>
      let found := member m gitHash in
      if negb (Member_truthy found) then Some (showError "Test data not found" st)
      else
        let data := fields found in
        let subject := or_else (get data "subject") (VStr "Unknown") in
        let results := detailResults gitHash data in
        Some (set_content (detailHtml subject results) st)
  end.

(** [showReviewByGitHash(gitHash)] *)
Definition showReviewByGitHash (gitHash : string) (st : App) : option App :=
  match metadata st with
  | Some m =>
      if Member_truthy (member m gitHash) then showTestDetail gitHash st
      else Some (showError ("Review with git hash " ++ gitHash ++ " not found") st)
  | None =>
      Some (showError ("Review with git hash " ++ gitHash ++ " not found") st)
  end.

(** [handleRoute()]; [response] is how the fetch of [status.txt] ends if
    the route is the status page. *)
Definition handleRoute (response : Fetched) (st : App) : option App :=
  let hash := hash st in
  if startsWith hash "#review/" then
    let gitHash := substring_from (String.length "#review/") hash in
    showReviewByGitHash gitHash st
  else if String.eqb hash "#status" then Some (showStatus response st)
  else Some (showHome st).

(** [updateHomeFilter()] *)
Definition updateHomeFilter (st : App) (doc : Document) : App * Document :=
  let enforcedFilter := getSelectedEnforcedFilter doc in
  let optionalFilter := getSelectedOptionalFilter doc in
  (st,
   {| radios := radios doc;
      tables :=
        update_first
          (fun _ => true)
          (with_rows
             (fun row =>
                let enforcedStatus := getRowEnforcedStatus row in
                let optionalStatus := getRowOptionalStatus row in
                let enforcedMatch :=
                  String.eqb enforcedFilter "All"
                  || String.eqb enforcedStatus enforcedFilter in
                let optionalMatch :=
                  String.eqb optionalFilter "All"
                  || String.eqb optionalStatus optionalFilter in
                if enforcedMatch && optionalMatch
                then classList_remove "filtered" row
                else classList_add "filtered" row))
          (tables doc) |}).

End Embedding.
End Direct.

(** ** Start-up, the version line and the log panel *)

(** How the fetch of a JSON document ended: with the parsed body, with a
    response that is not ok, or with an exception and its message (the
    network failed, or the body is not JSON). *)
Inductive FetchedJson (A : Type) : Type :=
| JsonBody (body : A)
| JsonNotOk
| JsonThrew (message : string).

Arguments JsonBody {A} body.
Arguments JsonNotOk {A}.
Arguments JsonThrew {A} message.

(** The [#logPanel] element: its class list, and the text of its
    [.log-content] child when it has one. *)
Record LogPanel : Type := {
  panelClassList : list string;
  logContent : option string
}.

(** [showLog(logPath, testName)] up to its [await]: the class [empty]
    goes and the panel holds the [.log-content] div with "Loading...".
    Without a panel nothing happens and nothing is fetched. *)
Definition showLog_start (logPanel : option LogPanel) : option LogPanel :=
  match logPanel with
  | None => None
  | Some panel =>
      Some {| panelClassList :=
                filter (fun t => negb (String.eqb "empty" t)) (panelClassList panel);
              logContent := Some "Loading..." |}
  end.

(** [showLog(logPath, testName)] from the moment the fetch of [logPath]
    has settled as [response]: the text of the [.log-content] child, if
    the panel still has one, becomes the log or the error report. *)
Definition showLog_settle (response : Fetched) (logPath : string) (panel : LogPanel) : LogPanel :=
  let shown :=
    match response with
    | Body logText => logText
    | NotOk => "Error loading log: " ++ "Failed to load log file" ++ nl ++ "Path: " ++ logPath
    | Threw message => "Error loading log: " ++ message ++ nl ++ "Path: " ++ logPath
    end in
  match logContent panel with
  | Some _ => {| panelClassList := panelClassList panel; logContent := Some shown |}
  | None => panel
  end.

(** [showLog(logPath, testName)] run to its end with nothing in between. *)
Definition showLog (response : Fetched) (logPath testName : string)
           (logPanel : option LogPanel) : option LogPanel :=
  option_map (showLog_settle response logPath) (showLog_start logPanel).

Section Startup.
Context {host : Host}.

Definition set_metadata (m : option Store) (st : App) : App :=
  {| metadata := m; currentView := currentView st;
     hash := hash st; content := content st |}.

(** [loadMetadata()]: the state with the parsed document ([None] when the
    document is [null]), or the message of the error it throws. *)
Definition loadMetadata (response : FetchedJson (option Store)) (st : App) : App + string :=
  match response with
  | JsonBody m => inl (set_metadata m st)
  | JsonNotOk =>
      inr ("Could not load metadata: " ++ "Failed to load metadata_store.json")
  | JsonThrew message => inr ("Could not load metadata: " ++ message)
  end.

(** [loadVersion()] of [src/unnamed/part_000], on the text of the
    [#version-info] element ([None] without such an element).  [version]
    is the parsed document, [None] when it is [null]; reading a member of
    [null] throws, and the [catch] swallows it. *)
Definition loadVersion (response : FetchedJson (option Record)) (el : option string) : option string :=
  match response with
  | JsonBody version =>
      match el, version with
      | None, _ => None
      | Some _, None => el
      | Some _, Some version =>
          if truthy_opt (get version "tag") && truthy_opt (get version "commit")
          then Some (interpolate (get version "tag") ++ " ("
                     ++ interpolate (get version "commit") ++ ")")
          else el
      end
  | JsonNotOk => el
  | JsonThrew _ => el
  end.

(** The application after [init()]: its state, and whether the
    [hashchange] listener was added. *)
Record Started : Type := {
  app : App;
  listening : bool
}.

(** [init()] of [src/app.js].  [typeError] is the engine's message for
    the TypeError that [handleRoute] could throw from [showTestDetail],
    where [currentView] has just been set. *)
Definition Indirect_init (typeError : string)
           (metadataResponse : FetchedJson (option Store))
           (statusResponse : Fetched) (st : App) : Started :=
  match loadMetadata metadataResponse st with
  | inl loaded =>
      match Indirect.handleRoute statusResponse loaded with
      | Some routed => {| app := routed; listening := true |}
      | None =>
          {| app := showError ("Failed to initialize application: " ++ typeError)
                      (set_currentView "detail" loaded);
             listening := false |}
      end
  | inr message =>
      {| app := showError ("Failed to initialize application: " ++ message) st;
         listening := false |}
  end.

(** [init()] of [src/unnamed/part_000]: the same, with [loadVersion()]
    started (and not awaited) once the metadata is loaded; the second
    component is the text of [#version-info]. *)
Definition Direct_init (typeError : string)
           (metadataResponse : FetchedJson (option Store))
           (versionResponse : FetchedJson (option Record))
           (statusResponse : Fetched) (st : App) (el : option string)
  : Started * option string :=
  match loadMetadata metadataResponse st with
  | inl loaded =>
      let el := loadVersion versionResponse el in
      match Direct.handleRoute statusResponse loaded with
      | Some routed => ({| app := routed; listening := true |}, el)
      | None =>
          ({| app := showError ("Failed to initialize application: " ++ typeError)
                       (set_currentView "detail" loaded);
              listening := false |}, el)
      end
  | inr message =>
      ({| app := showError ("Failed to initialize application: " ++ message) st;
          listening := false |}, el)
  end.

End Startup.

(** ** A host to run the embedding on *)

(** JSON numbers restricted to the integers and printed in decimal;
    decimal literals kept exact; the time cell showing the whole seconds
    of the time stamp.  The Records of the scenarios below hold strings
    only. *)
Definition Z_toString (n : Z) : string :=
  DecimalString.NilZero.string_of_int (Z.to_int n).

Definition show_seconds (t : Double) : string :=
  match t with
  | Fin x => Z_toString (Qfloor x) ++ " s"
  | NaN | NegInf | PosInf => "Invalid Date"
  end.

Definition integerHost : Host := {|
  Number := Z;
  Number_toString := Z_toString;
  Number_toBoolean := fun n => negb (n =? 0)%Z;
  binary64 := Fin;
  toLocaleString := show_seconds
|}.

(** ** The vocabulary of the specification *)

(** [t] occurs in [s]. *)
Definition Occurs (t s : string) : Prop :=
  exists before after, s = before ++ t ++ after.


(** The status cell of a passed test in the results table. *)
Definition passCell : string :=
  "<td style=" ++ q "color:green;" ++ ">PASS</td>".

(** The position-wise reading of "every space replaced by an underscore
    and lower-cased". *)
Definition normalized (name out : string) : Prop :=
  String.length out = String.length name
  /\ forall i c, String.get i name = Some c ->
       String.get i out
       = Some (if Ascii.eqb c " "%char then "_"%char else lowerChar c).

(** [r] is [s] without the prefix [p], or [s] itself if [s] has no such
    prefix. *)
Definition without_prefix (p s r : string) : Prop :=
  s = p ++ r \/ (startsWith s p = false /\ r = s).

(** [r] is [s] without the suffix [p], or [s] itself if [s] has no such
    suffix. *)
Definition without_suffix (p s r : string) : Prop :=
  s = r ++ p \/ (endsWith s p = false /\ r = s).

(** The four required fields of a Record. *)
Definition requiredFields : list string :=
  [ "patch_revision"; "change_id"; "subject"; "time_stamp" ].

(** The shape of the comparator of both files: the time of the second
    argument minus the time of the first. *)
Definition by_time {A : Type} (time : A -> Double) (a b : A) : Double :=
  Double_sub (time b) (time a).

(** [a] may stand before [b]: its time is not the smaller one. *)
Definition not_older {A : Type} (time : A -> Double) (a b : A) : Prop :=
  Double_leb (time b) (time a) = true.

(** Rows in non-increasing order of time, with every row whose time is
    NaN after every row whose time is a number. *)
Definition newest_first_NaN_last {I : Type} (time : I -> Double) (rows : list I) : Prop :=
  forall before a between b after,
    rows = (before ++ a :: between ++ b :: after)%list ->
    (isNaN (time a) = true -> isNaN (time b) = true)
    /\ (isNaN (time a) = false -> isNaN (time b) = false ->
        Double_leb (time b) (time a) = true).

(** What both filters do to a row once they have decided whether it
    matches. *)
Definition marked (matches : bool) (row : Tr) : Tr :=
  if matches then classList_remove "filtered" row else classList_add "filtered" row.

(** The row keeps its cells and its other class tokens, and carries
    [filtered] exactly when it does not match. *)
Definition hidden_iff (mismatch : Prop) (row row' : Tr) : Prop :=
  cells row' = cells row
  /\ (has_token "filtered" (classList row') = true <-> mismatch)
  /\ (forall token, token <> "filtered" ->
        has_token token (classList row') = has_token token (classList row)).

(** An axis lets a row through when it is set to "All" or to the row's
    stored status. *)
Definition axis_mismatch (selected stored : string) : Prop :=
  selected <> "All" /\ stored <> selected.

Section Vocabulary.
Context {host : Host}.

(** The field [f] is present in [data] and is not the empty string. *)
Definition present_nonempty (data : Record) (f : string) : Prop :=
  exists v, get data f = Some v /\ v <> VStr "".

(** What the loop of [showTestDetail] pushes for the field [key], given
    the log path prefix of the file at hand. *)
Definition outcome_of (prefix : string) (data : Record) (key : string) : Outcome :=
  let name := substring_from (String.length "result") key in
  {| result := {| name := name;
                  rc := rc_or_sentinel (parseInt (get data key));
                  enforced := enforced_flag (get data ("enforced" ++ name)) |};
     runtime := or_else (get data ("runtime" ++ name)) (VStr "N/A");
     description := or_else (get data ("description" ++ name)) (VStr ("Job: " ++ name));
     logPath := prefix ++ "_" ++ toLowerCase (replaceSpaces name) ++ ".log" |}.


(** [homeFiles] before the sort. *)
Definition Indirect_candidates (m : Store) : list Indirect.Item :=
  filter Indirect.complete
    (map (fun path => {| Indirect.path := path;
                         Indirect.data := fields (member m path) |})
       (filter (fun path => endsWith path "_home.html") (keys m))).

(** [testRuns] before the sort. *)
Definition Direct_candidates (m : Store) : list Direct.Item :=
  filter Direct.complete
    (map (fun gitHash => {| Direct.gitHash := gitHash;
                            Direct.data := fields (member m gitHash) |})
       (keys m)).

(** The parsed time stamp of a row. *)
Definition Indirect_time (item : Indirect.Item) : Double :=
  parseFloat (get (Indirect.data item) "time_stamp").

Definition Direct_time (item : Direct.Item) : Double :=
  parseFloat (get (Direct.data item) "time_stamp").

End Vocabulary.

(** ** The scenarios of the specification *)

Section Samples.
#[local] Existing Instance integerHost.

Definition app_at (m : Store) (fragment : string) : App :=
  {| metadata := Some m; currentView := "home"; hash := fragment; content := "" |}.

(** Direct-key scenario: one Record under its git hash. *)
Definition build_record : Record :=
  [ ("subject", VStr "Fix bug"); ("change_id", VStr "100");
    ("patch_revision", VStr "abc123"); ("time_stamp", VStr "1700000000");
    ("resultBuild", VStr "0"); ("enforcedBuild", VStr "True") ].

Definition direct_store : Store := [ ("abc123", build_record) ].

(** Indirect-key scenario: one Record under the path of its home file. *)
Definition home_200 : string :=
  "/var/www/ci-lustre/upstream-patch-review/200_home.html".

Definition record_200 : Record :=
  [ ("subject", VStr "Fix bug"); ("change_id", VStr "200");
    ("patch_revision", VStr "def456"); ("time_stamp", VStr "1700000000");
    ("resultUnit Tests", VStr "abort"); ("enforcedUnit Tests", VStr "false") ].

Definition indirect_store : Store := [ (home_200, record_200) ].

(** Two complete Records, the older one first in the store. *)
Definition record_at (time_stamp : string) : Record :=
  [ ("subject", VStr "s"); ("change_id", VStr "1");
    ("patch_revision", VStr "r"); ("time_stamp", VStr time_stamp) ].

Definition two_runs : Store :=
  [ ("1_home.html", record_at "1700000000"); ("2_home.html", record_at "1700000060.5") ].

(** Two complete Records, the first with a time stamp that is no number. *)
Definition unparsed_first : Store :=
  [ ("1_home.html", record_at "yesterday"); ("2_home.html", record_at "1700000000") ].

(** A Record without subject next to a complete one. *)
Definition one_incomplete : Store :=
  [ ("1_home.html", [ ("change_id", VStr "1"); ("patch_revision", VStr "r");
                      ("time_stamp", VStr "1700000000") ]);
    ("2_home.html", record_at "1700000000") ].

(** A Record whose revision holds markup. *)
Definition markup_revision : Store :=
  [ ("1_home.html",
     [ ("subject", VStr "s"); ("change_id", VStr "1");
       ("patch_revision", VStr (dq ++ "><script>alert(1)</script>"));
       ("time_stamp", VStr "1700000000") ]) ].

(** A Record with a quote in a test name. *)
Definition quoted_test : Store :=
  [ ("abc123", [ ("result');alert(1);//", VStr "0") ]) ].

(** The detail table with a passed and a failed row, and the status
    filter set to FAIL. *)
Definition detail_table : Table :=
  {| className := [ "test-results-table" ];
     rows := [ {| cells := [ "Build"; "Job: Build"; "Enforced"; "N/A"; "PASS" ];
                  classList := [] |};
               {| cells := [ "Unit Tests"; "Job: Unit Tests"; "Optional"; "N/A"; "FAIL" ];
                  classList := [] |} ] |}.

Definition detail_document : Document :=
  {| radios := [ {| group := "statusfilter"; value := "PASS"; checked := false |};
                 {| group := "statusfilter"; value := "FAIL"; checked := true |};
                 {| group := "statusfilter"; value := "All"; checked := false |} ];
     tables := [ detail_table ] |}.

(** The home table with one row, and the enforced filter set to FAIL. *)
Definition home_table : Table :=
  {| className := [];
     rows := [ {| cells := [ "Link"; "Fix bug"; "abc123"; "100"; "t"; "N/A"; "PASS"; "N/A" ];
                  classList := [] |} ] |}.

Definition home_document : Document :=
  {| radios := [ {| group := "enforcedfilter"; value := "FAIL"; checked := true |};
                 {| group := "optionalfilter"; value := "All"; checked := true |} ];
     tables := [ home_table ] |}.

Definition build_outcome : Outcome :=
  {| result := {| name := "Build"; rc := 0; enforced := true |};
     runtime := VStr "N/A"; description := VStr "Job: Build";
     logPath := "abc123_build.log" |}.

Definition unit_tests_outcome : Outcome :=
  {| result := {| name := "Unit Tests"; rc := -1; enforced := false |};
     runtime := VStr "N/A"; description := VStr "Job: Unit Tests";
     logPath := "200_unit_tests.log" |}.

End Samples.

(** ** Further vocabulary and scenarios *)

(** [html] is one element, [opening] to [closing], around a text that
    holds no angle bracket. *)
Definition wrapped_text (opening closing html : string) : Prop :=
  exists body,
    html = opening ++ body ++ closing
    /\ includes body "<" = false /\ includes body ">" = false.

(** The opening tag of the error view. *)
Definition errorOpen : string := "<div class=" ++ q "error" ++ ">".

(** A code unit that [escapeHtml] leaves as it is. *)
Definition plain (c : ascii) : bool :=
  negb (Ascii.eqb c "&"%char || Ascii.eqb c "160"%char
        || Ascii.eqb c "<"%char || Ascii.eqb c ">"%char).

Fixpoint all_plain (s : string) : bool :=
  match s with
  | EmptyString => true
  | String c t => plain c && all_plain t
  end.

(** A capital letter A-Z. *)
Definition isCapital (c : ascii) : bool :=
  ((65 <=? nat_of_ascii c) && (nat_of_ascii c <=? 90))%nat.

Section MoreSamples.
#[local] Existing Instance integerHost.

(** Two complete Records with the same time stamp. *)
Definition tied_runs : Store :=
  [ ("1_home.html", record_at "1700000000"); ("2_home.html", record_at "1700000000") ].

(** A complete Record whose change id is a JSON number. *)
Definition numeric_change_id : Store :=
  [ ("300_home.html",
     [ ("subject", VStr "s"); ("change_id", VNum 300%Z);
       ("patch_revision", VStr "r"); ("time_stamp", VStr "1700000000") ]) ].

Definition numeric_item : Indirect.Item :=
  {| Indirect.path := "300_home.html";
     Indirect.data := [ ("subject", VStr "s"); ("change_id", VNum 300%Z);
                        ("patch_revision", VStr "r");
                        ("time_stamp", VStr "1700000000") ] |}.

(** The status filter with no radio checked, over the detail table. *)
Definition unchecked_document : Document :=
  {| radios := [ {| group := "statusfilter"; value := "PASS"; checked := false |};
                 {| group := "statusfilter"; value := "FAIL"; checked := false |} ];
     tables := [ detail_table ] |}.

(** The status filter set back to "All". *)
Definition all_radios : list Radio :=
  [ {| group := "statusfilter"; value := "PASS"; checked := false |};
    {| group := "statusfilter"; value := "FAIL"; checked := false |};
    {| group := "statusfilter"; value := "All"; checked := true |} ].

(** A page without tables. *)
Definition bare_document : Document := {| radios := all_radios; tables := [] |}.

(** The log panel as [showTestDetail] writes it. *)
Definition fresh_panel : LogPanel :=
  {| panelClassList := [ "right-panel"; "empty" ]; logContent := None |}.

(** A version document. *)
Definition version_record : Record :=
  [ ("tag", VStr "v1.2"); ("commit", VStr "0a1b2c3") ].

(** The application before any metadata has arrived. *)
Definition null_app (fragment : string) : App :=
  {| metadata := None; currentView := "home"; hash := fragment; content := "" |}.



End MoreSamples.

(* ================================================================== *)
(** * Part II: properties *)
(* ================================================================== *)

(** ** Strings *)

Lemma append_assoc (a b c : string) : (a ++ b) ++ c = a ++ (b ++ c).
Proof. induction a as [|x a IH]; simpl; [reflexivity | now rewrite IH]. Qed.

Lemma append_empty_r (a : string) : a ++ "" = a.
Proof. induction a as [|x a IH]; simpl; [reflexivity | now rewrite IH]. Qed.

Lemma length_append (a b : string) :
  String.length (a ++ b) = String.length a + String.length b.
Proof. induction a as [|x a IH]; simpl; [reflexivity | now rewrite IH]. Qed.

Lemma startsWith_append (p t : string) : startsWith (p ++ t) p = true.
Proof.
  unfold startsWith. induction p as [|x p IH]; simpl.
  - destruct t; reflexivity.
  - destruct (ascii_dec x x) as [_|ne]; [exact IH | now elim ne].
Qed.

Lemma substring_from_append (p t : string) :
  substring_from (String.length p) (p ++ t) = t.
Proof. induction p as [|x p IH]; simpl; [now destruct t | exact IH]. Qed.

Lemma substring_to_append (t p : string) :
  substring_to (String.length t) (t ++ p) = t.
Proof.
  induction t as [|x t IH]; simpl; [now destruct p | now rewrite IH].
Qed.

Lemma substring_split (n : nat) (s : string) :
  s = substring_to n s ++ substring_from n s.
Proof.
  revert s. induction n as [|n IH]; intros [|c s]; simpl; try reflexivity.
  now rewrite <- IH.
Qed.

(** [startsWith] decides "has this prefix". *)
Lemma startsWith_spec (s p : string) :
  startsWith s p = true <-> exists t, s = p ++ t.
Proof.
  split.
  - unfold startsWith. revert s.
    induction p as [|x p IH]; intros s Hp.
    + exists s. reflexivity.
    + destruct s as [|y s]; simpl in Hp; [discriminate|].
      destruct (ascii_dec x y) as [->|]; [|discriminate].
      destruct (IH s Hp) as [t ->]. exists t. reflexivity.
  - intros [t ->]. apply startsWith_append.
Qed.

(** After a successful [startsWith], [substring] gives the rest. *)
Lemma startsWith_rest (s p : string) :
  startsWith s p = true -> s = p ++ substring_from (String.length p) s.
Proof.
  intros Hp. apply startsWith_spec in Hp. destruct Hp as [t ->].
  now rewrite substring_from_append.
Qed.

(** [endsWith] decides "has this suffix". *)
Lemma endsWith_spec (s p : string) :
  endsWith s p = true <-> exists t, s = t ++ p.
Proof.
  unfold endsWith. split.
  - intros Hs. apply andb_true_iff in Hs. destruct Hs as [_ Heq].
    apply String.eqb_eq in Heq.
    exists (substring_to (String.length s - String.length p) s).
    pose proof (substring_split (String.length s - String.length p) s) as Hsplit.
    rewrite Heq in Hsplit. exact Hsplit.
  - intros [t ->]. rewrite length_append. apply andb_true_iff. split.
    + apply Nat.leb_le. lia.
    + replace (String.length t + String.length p - String.length p)
        with (String.length t) by lia.
      rewrite substring_from_append. apply String.eqb_refl.
Qed.

Lemma removeAtStart_present (p t : string) : removeAtStart p (p ++ t) = t.
Proof.
  unfold removeAtStart. rewrite startsWith_append. apply substring_from_append.
Qed.

Lemma removeAtEnd_present (t p : string) : removeAtEnd p (t ++ p) = t.
Proof.
  unfold removeAtEnd.
  replace (endsWith (t ++ p) p) with true
    by (symmetry; apply endsWith_spec; now exists t).
  rewrite length_append.
  replace (String.length t + String.length p - String.length p)
    with (String.length t) by lia.
  apply substring_to_append.
Qed.

Lemma mapString_append (f : ascii -> ascii) (a b : string) :
  mapString f (a ++ b) = mapString f a ++ mapString f b.
Proof. induction a as [|x a IH]; simpl; [reflexivity | now rewrite IH]. Qed.

Lemma mapString_length (f : ascii -> ascii) (s : string) :
  String.length (mapString f s) = String.length s.
Proof. induction s as [|x s IH]; simpl; [reflexivity | now rewrite IH]. Qed.

Lemma mapString_get (f : ascii -> ascii) (s : string) (i : nat) :
  String.get i (mapString f s) = option_map f (String.get i s).
Proof.
  revert i. induction s as [|x s IH]; intros [|i]; simpl; try reflexivity.
  apply IH.
Qed.

(** ** Summaries *)

(** The three answers of [summarize] and when each is given. *)
Lemma summarize_cases (results : list Result) :
  (text (summarize results) = "N/A" <-> results = [])
  /\ (text (summarize results) = "PASS"
      <-> results <> [] /\ Forall (fun r => rc r = 0%Z) results)
  /\ (text (summarize results) = "FAIL"
      <-> results <> [] /\ Exists (fun r => rc r <> 0%Z) results)
  /\ (text (summarize results) = "N/A" \/ text (summarize results) = "PASS"
      \/ text (summarize results) = "FAIL").
Proof.
  unfold summarize. destruct results as [|r0 rest].
  - simpl. split; [|split; [|split]].
    + tauto.
    + split; [discriminate | intros [Hne _]; now elim Hne].
    + split; [discriminate | intros [Hne _]; now elim Hne].
    + now left.
  - cbn [List.length Nat.eqb].
    destruct (forallb (fun r => (rc r =? 0)%Z) (r0 :: rest)) eqn:Hall; cbn [text].
    + assert (Hzero : Forall (fun r => rc r = 0%Z) (r0 :: rest)).
      { apply Forall_forall. intros r Hr.
        rewrite forallb_forall in Hall. apply Z.eqb_eq. now apply Hall. }
      split; [|split; [|split]].
      * split; discriminate.
      * split; [intros _; split; [discriminate | exact Hzero] | reflexivity].
      * split; [discriminate|].
        intros [_ Hex]. apply Exists_exists in Hex. destruct Hex as [r [Hr Hnz]].
        rewrite Forall_forall in Hzero. elim Hnz. now apply Hzero.
      * right. now left.
    + assert (Hsome : Exists (fun r => rc r <> 0%Z) (r0 :: rest)).
      { apply Exists_exists.
        destruct (existsb (fun r => negb (rc r =? 0)%Z) (r0 :: rest)) eqn:Hex.
        - apply existsb_exists in Hex. destruct Hex as [r [Hr Hn]].
          exists r. split; [exact Hr|]. apply negb_true_iff in Hn.
          now apply Z.eqb_neq.
        - assert (Hforall : forallb (fun r => (rc r =? 0)%Z) (r0 :: rest) = true).
          { apply forallb_forall. intros r Hr.
            destruct (rc r =? 0)%Z eqn:Hrc; [reflexivity|].
            assert (Htrue : existsb (fun r => negb (rc r =? 0)%Z) (r0 :: rest) = true)
              by (apply existsb_exists; exists r; split; [exact Hr | now rewrite Hrc]).
            rewrite Hex in Htrue. discriminate. }
          rewrite Hall in Hforall. discriminate. }
      split; [|split; [|split]].
      * split; discriminate.
      * split; [discriminate|].
        intros [_ Hzero]. apply Exists_exists in Hsome.
        destruct Hsome as [r [Hr Hnz]]. rewrite Forall_forall in Hzero.
        elim Hnz. now apply Hzero.
      * split; [intros _; split; [discriminate | exact Hsome] | reflexivity].
      * right. now right.
Qed.

(** C1.  [summarize] answers N/A exactly on the empty list, PASS exactly on
    a non-empty list whose members all have return code 0, and FAIL
    exactly on a non-empty list with a member whose return code is not 0;
    these are its only three answers. *)
Theorem summarize_three_way (results : list Result) :
  (text (summarize results) = "N/A" <-> results = [])
  /\ (text (summarize results) = "PASS"
      <-> results <> [] /\ Forall (fun r => rc r = 0%Z) results)
  /\ (text (summarize results) = "FAIL"
      <-> results <> [] /\ Exists (fun r => rc r <> 0%Z) results)
  /\ (text (summarize results) = "N/A" \/ text (summarize results) = "PASS"
      \/ text (summarize results) = "FAIL").
Proof. exact (summarize_cases results). Qed.

(** ** Routing *)

Section Routing.
Context {host : Host}.

Lemma find_some_in {A : Type} (p : A -> bool) (l : list A) (x : A) :
  find p l = Some x -> In x l /\ p x = true.
Proof. apply find_some. Qed.

Lemma assoc_in_keys {A : Type} (k : string) (o : list (string * A)) :
  In k (keys o) -> exists v, assoc k o = Some v.
Proof.
  induction o as [|[k' v] o IH]; simpl; [tauto|].
  intros [->|Hin].
  - rewrite String.eqb_refl. now exists v.
  - destruct (String.eqb k' k); [now exists v | now apply IH].
Qed.

(** The detail view never fails once the metadata is loaded. *)
Lemma Indirect_showTestDetail_loaded (homePath : string) (st : App) (m : Store) :
  metadata st = Some m -> exists st', Indirect.showTestDetail homePath st = Some st'.
Proof.
  intros Hm. unfold Indirect.showTestDetail. cbn [metadata set_currentView].
  rewrite Hm. destruct (negb (Member_truthy (member m homePath))); eauto.
Qed.

Lemma Direct_showTestDetail_loaded (gitHash : string) (st : App) (m : Store) :
  metadata st = Some m -> exists st', Direct.showTestDetail gitHash st = Some st'.
Proof.
  intros Hm. unfold Direct.showTestDetail. cbn [metadata set_currentView].
  rewrite Hm. destruct (negb (Member_truthy (member m gitHash))); eauto.
Qed.

(** No fragment makes [handleRoute] throw, in either file. *)
Lemma Indirect_handleRoute_total (response : Fetched) (st : App) :
  exists st', Indirect.handleRoute response st = Some st'.
Proof.
  unfold Indirect.handleRoute.
  destruct (startsWith (hash st) "#review/"); [|destruct (String.eqb _ _); eauto].
  unfold Indirect.showReviewByChangeId.
  destruct (metadata st) as [m|] eqn:Hm; cbn [Indirect.findHomeFile keys map filter find].
  - destruct (Indirect.findHomeFile m _) as [homeFile|]; [|eauto].
    destruct (negb (String.eqb homeFile "")); [|eauto].
    now apply Indirect_showTestDetail_loaded with m.
  - eauto.
Qed.

Lemma Direct_handleRoute_total (response : Fetched) (st : App) :
  exists st', Direct.handleRoute response st = Some st'.
Proof.
  unfold Direct.handleRoute.
  destruct (startsWith (hash st) "#review/"); [|destruct (String.eqb _ _); eauto].
  unfold Direct.showReviewByGitHash.
  destruct (metadata st) as [m|] eqn:Hm; [|eauto].
  destruct (Member_truthy (member m _)); [|eauto].
  now apply Direct_showTestDetail_loaded with m.
Qed.

Lemma Indirect_showHome_view (st : App) :
  currentView (Indirect.showHome st) = "home"
  /\ hash (Indirect.showHome st) = ""
  /\ metadata (Indirect.showHome st) = metadata st
  /\ forall m, metadata st = Some m ->
       content (Indirect.showHome st) = Indirect.homeHtml m.
Proof.
  unfold Indirect.showHome. cbn [metadata set_hash set_currentView].
  destruct (metadata st) as [m|] eqn:Hm; cbn; rewrite ?Hm; repeat split;
    intros m' Hm'; congruence.
Qed.

Lemma Direct_showHome_view (st : App) :
  currentView (Direct.showHome st) = "home"
  /\ hash (Direct.showHome st) = ""
  /\ metadata (Direct.showHome st) = metadata st
  /\ forall m, metadata st = Some m ->
       content (Direct.showHome st) = Direct.homeHtml m.
Proof.
  unfold Direct.showHome. cbn [metadata set_hash set_currentView].
  destruct (metadata st) as [m|] eqn:Hm; cbn; rewrite ?Hm; repeat split;
    intros m' Hm'; congruence.
Qed.

(** The fragment change that [showHome] itself causes leads back to the
    same page. *)
Lemma Indirect_showHome_again (response : Fetched) (st : App) :
  Indirect.handleRoute response (Indirect.showHome st) = Some (Indirect.showHome st).
Proof.
  unfold Indirect.handleRoute, Indirect.showHome.
  destruct st as [[m|] view fragment html]; reflexivity.
Qed.

Lemma Direct_showHome_again (response : Fetched) (st : App) :
  Direct.handleRoute response (Direct.showHome st) = Some (Direct.showHome st).
Proof.
  unfold Direct.handleRoute, Direct.showHome.
  destruct st as [[m|] view fragment html]; reflexivity.
Qed.

(** C10.  A fragment that neither starts with [#review/] nor is [#status]
    is routed to [showHome], in both files: the view becomes "home" and,
    with the metadata loaded, the content is the home table.  Routing
    returns normally for every fragment. *)
Theorem other_fragments_route_home (response : Fetched) (st : App) :
  startsWith (hash st) "#review/" = false ->
  String.eqb (hash st) "#status" = false ->
  (Indirect.handleRoute response st = Some (Indirect.showHome st)
   /\ currentView (Indirect.showHome st) = "home"
   /\ forall m, metadata st = Some m ->
        content (Indirect.showHome st) = Indirect.homeHtml m)
  /\ (Direct.handleRoute response st = Some (Direct.showHome st)
      /\ currentView (Direct.showHome st) = "home"
      /\ forall m, metadata st = Some m ->
           content (Direct.showHome st) = Direct.homeHtml m)
  /\ (forall response' st',
        (exists next, Indirect.handleRoute response' st' = Some next)
        /\ (exists next, Direct.handleRoute response' st' = Some next)).
Proof.
  intros Hreview Hstatus.
  destruct (Indirect_showHome_view st) as [Hiv [_ [_ Hic]]].
  destruct (Direct_showHome_view st) as [Hdv [_ [_ Hdc]]].
  repeat split; try assumption.
  - unfold Indirect.handleRoute. now rewrite Hreview, Hstatus.
  - unfold Direct.handleRoute. now rewrite Hreview, Hstatus.
  - apply Indirect_handleRoute_total.
  - apply Direct_handleRoute_total.
Qed.

End Routing.

(** ** Extraction of outcomes *)

Lemma Occurs_here (t : string) : Occurs t t.
Proof. exists "", "". simpl. now rewrite append_empty_r. Qed.

Lemma Occurs_right (x s t : string) : Occurs t s -> Occurs t (x ++ s).
Proof.
  intros [before [after ->]]. exists (x ++ before), after.
  now rewrite append_assoc.
Qed.

Lemma Occurs_left (x s t : string) : Occurs t s -> Occurs t (s ++ x).
Proof.
  intros [before [after ->]]. exists before, (after ++ x).
  now rewrite !append_assoc.
Qed.

Section Extraction.
Context {host : Host}.


Lemma Indirect_detailResults_spec (homePath : string) (data : Record) (o : Outcome) :
  In o (Indirect.detailResults homePath data)
  <-> exists key, In key (keys data) /\ startsWith key "result" = true
                  /\ o = outcome_of (Indirect.logPrefix homePath) data key.
Proof.
  unfold Indirect.detailResults. rewrite in_flat_map. split.
  - intros [key [Hin Ho]]. exists key. split; [exact Hin|].
    destruct (startsWith key "result"); [|now elim Ho].
    destruct Ho as [<-|[]]. now split.
  - intros [key [Hin [Hstart ->]]]. exists key. split; [exact Hin|].
    rewrite Hstart. now left.
Qed.

Lemma Direct_detailResults_spec (gitHash : string) (data : Record) (o : Outcome) :
  In o (Direct.detailResults gitHash data)
  <-> exists key, In key (keys data) /\ startsWith key "result" = true
                  /\ o = outcome_of gitHash data key.
Proof.
  unfold Direct.detailResults. rewrite in_flat_map. split.
  - intros [key [Hin Ho]]. exists key. split; [exact Hin|].
    destruct (startsWith key "result"); [|now elim Ho].
    destruct Ho as [<-|[]]. now split.
  - intros [key [Hin [Hstart ->]]]. exists key. split; [exact Hin|].
    rewrite Hstart. now left.
Qed.



(** The row of a result whose return code is 0 shows PASS in green. *)
Lemma resultRow_pass (o : Outcome) : rc o = 0%Z -> Occurs passCell (resultRow o).
Proof.
  intros Hrc. apply Z.eqb_eq in Hrc. unfold resultRow. rewrite Hrc.
  do 6 apply Occurs_right. apply Occurs_left.
  unfold line. apply Occurs_right, Occurs_left, Occurs_here.
Qed.



End Extraction.

(** ** Log paths *)

Section LogPaths.
Context {host : Host}.

Lemma lowerChar_underscore : lowerChar "_"%char = "_"%char.
Proof. reflexivity. Qed.

(** The code's [name.replace(/ /g, "_").toLowerCase()] is the
    position-wise normalisation. *)
Lemma normalized_code (name : string) :
  normalized name (toLowerCase (replaceSpaces name)).
Proof.
  unfold normalized, toLowerCase, replaceSpaces. split.
  - now rewrite !mapString_length.
  - intros i c Hget. rewrite !mapString_get, Hget. cbn [option_map].
    destruct (Ascii.eqb c " "%char); [now rewrite lowerChar_underscore | reflexivity].
Qed.

Lemma removeAtStart_spec (p s : string) : without_prefix p s (removeAtStart p s).
Proof.
  unfold without_prefix, removeAtStart.
  destruct (startsWith s p) eqn:Hstart.
  - left. now apply startsWith_rest.
  - right. now split.
Qed.

Lemma removeAtEnd_spec (p s : string) : without_suffix p s (removeAtEnd p s).
Proof.
  unfold without_suffix, removeAtEnd.
  destruct (endsWith s p) eqn:Hend.
  - left. apply endsWith_spec in Hend. destruct Hend as [t ->].
    rewrite length_append.
    replace (String.length t + String.length p - String.length p)
      with (String.length t) by lia.
    now rewrite substring_to_append.
  - right. now split.
Qed.

(** The key of a home file of the installation gives back what stands
    between the installation prefix and [_home.html]. *)
Lemma logPrefix_home_file (rest : string) :
  Indirect.logPrefix
    ("/var/www/ci-lustre/upstream-patch-review/" ++ rest ++ "_home.html") = rest.
Proof.
  unfold Indirect.logPrefix.
  rewrite removeAtStart_present. apply removeAtEnd_present.
Qed.

(** C9.  The log path of every outcome is the key-derived prefix, an
    underscore, the test name with every space replaced by an underscore
    and lower-cased, and [.log].  In [src/unnamed/part_000] the prefix is
    the record key itself; in [src/app.js] it is the key without the
    installation prefix [/var/www/ci-lustre/upstream-patch-review/] and
    then without the suffix [_home.html]. *)
Theorem log_path_of_outcome (key : string) (data : Record) (o : Outcome) :
  (In o (Direct.detailResults key data) ->
   exists normal,
     normalized (name o) normal
     /\ logPath o = key ++ "_" ++ normal ++ ".log")
  /\ (In o (Indirect.detailResults key data) ->
      exists webPath prefix normal,
        without_prefix "/var/www/ci-lustre/upstream-patch-review/" key webPath
        /\ without_suffix "_home.html" webPath prefix
        /\ normalized (name o) normal
        /\ logPath o = prefix ++ "_" ++ normal ++ ".log").
Proof.
  split.
  - intros Hin. apply Direct_detailResults_spec in Hin.
    destruct Hin as [field [_ [_ ->]]].
    eexists. split; [apply normalized_code | reflexivity].
  - intros Hin. apply Indirect_detailResults_spec in Hin.
    destruct Hin as [field [_ [_ ->]]].
    exists (removeAtStart "/var/www/ci-lustre/upstream-patch-review/" key).
    exists (Indirect.logPrefix key). eexists.
    split; [apply removeAtStart_spec|].
    split; [apply removeAtEnd_spec|].
    split; [apply normalized_code | reflexivity].
Qed.

End LogPaths.

(** ** Sorting *)

Section Sorting.
Variable A : Type.
Variable comparefn : A -> A -> Double.

Lemma insert_perm (x : A) (l : list A) :
  Permutation (insert comparefn x l) (x :: l).
Proof.
  induction l as [|y rest IH]; cbn [insert]; [reflexivity|].
  destruct (positive (comparefn x y)); [|reflexivity].
  rewrite IH. apply perm_swap.
Qed.

(** Sorting loses and invents nothing. *)
Lemma sort_perm (l : list A) : Permutation (sort comparefn l) l.
Proof.
  unfold sort. induction l as [|x l IH]; cbn [fold_right]; [reflexivity|].
  rewrite insert_perm. now apply perm_skip.
Qed.

Lemma sort_in (l : list A) (x : A) : In x (sort comparefn l) <-> In x l.
Proof.
  split; apply Permutation_in; [apply sort_perm | symmetry; apply sort_perm].
Qed.

(** Two elements between which the comparator answers NaN stay as they
    are: the only comparison a two-element sort can make is a tie. *)
Lemma sort_pair_tie (x y : A) :
  comparefn x y = NaN -> sort comparefn [x; y] = [x; y].
Proof. intros Hnan. unfold sort. cbn. now rewrite Hnan. Qed.

End Sorting.

Lemma Double_leb_trans (x y z : Double) :
  Double_leb x y = true -> Double_leb y z = true -> Double_leb x z = true.
Proof.
  destruct x as [| |a|], y as [| |b|], z as [| |c|]; cbn; try congruence.
  rewrite !Qle_bool_iff. apply Qle_trans.
Qed.

Lemma positive_sub_true (x y : Double) :
  positive (Double_sub y x) = true -> Double_leb x y = true.
Proof.
  destruct x as [| |a|], y as [| |b|]; cbn; try congruence.
  intros Hpos. apply negb_true_iff in Hpos.
  apply Qle_bool_iff.
  destruct (Qlt_le_dec b a) as [Hlt|Hle]; [|exact Hle].
  assert (Hneg : Qle_bool (b - a) 0 = true) by (apply Qle_bool_iff; lra).
  congruence.
Qed.

Lemma positive_sub_false (x y : Double) :
  isNaN x = false -> isNaN y = false ->
  positive (Double_sub y x) = false -> Double_leb y x = true.
Proof.
  destruct x as [| |a|], y as [| |b|]; cbn; try congruence.
  intros _ _ Hpos. apply negb_false_iff in Hpos.
  apply Qle_bool_iff in Hpos. apply Qle_bool_iff. lra.
Qed.

(** ** The order of the home rows *)

Section Newest_first.
Variable A : Type.
Variable time : A -> Double.

Lemma insert_sorted (x : A) (l : list A) :
  isNaN (time x) = false ->
  Forall (fun y => isNaN (time y) = false) l ->
  StronglySorted (not_older time) l ->
  StronglySorted (not_older time) (insert (by_time time) x l).
Proof.
  intros Hx Hl Hsorted. induction Hsorted as [|y rest Hrest IH Hy]; cbn [insert].
  - constructor; constructor.
  - inversion Hl as [|? ? Hny Hnrest]; subst.
    destruct (positive (by_time time x y)) eqn:Hpos.
    + constructor; [now apply IH|].
      apply (Permutation_Forall (x := x :: rest));
        [symmetry; apply insert_perm|].
      constructor; [|exact Hy].
      unfold not_older. now apply positive_sub_true.
    + assert (Hxy : not_older time x y)
        by (unfold not_older; now apply positive_sub_false).
      constructor; [now constructor|].
      constructor; [exact Hxy|].
      apply Forall_impl with (P := not_older time y); [|exact Hy].
      intros z Hyz. unfold not_older in *. now apply Double_leb_trans with (time y).
Qed.

(** With no NaN among the times, the sorted list is non-increasing in
    time. *)
Lemma sort_sorted (l : list A) :
  Forall (fun y => isNaN (time y) = false) l ->
  StronglySorted (not_older time) (sort (by_time time) l).
Proof.
  unfold sort. induction l as [|x l IH]; intros Hl; cbn [fold_right].
  - constructor.
  - inversion Hl as [|? ? Hx Hrest]; subst.
    apply insert_sorted; [exact Hx | | now apply IH].
    apply (Permutation_Forall (x := l)); [|exact Hrest].
    symmetry. apply (sort_perm A (by_time time) l).
Qed.

End Newest_first.

(** ** The home listing *)

Lemma StronglySorted_in_impl {A : Type} (R R' : A -> A -> Prop) (l : list A) :
  (forall a b, In a l -> In b l -> R a b -> R' a b) ->
  StronglySorted R l -> StronglySorted R' l.
Proof.
  intros Himpl Hsorted. induction Hsorted as [|x l Hl IH Hx].
  - constructor.
  - constructor.
    + apply IH. intros a b Ha Hb. apply Himpl; now right.
    + rewrite Forall_forall in *. intros y Hy.
      apply Himpl; [now left | now right | now apply Hx].
Qed.

Section Home.
Context {host : Host}.

Lemma truthy_present (data : Record) (f : string) :
  truthy_opt (get data f) = true -> present_nonempty data f.
Proof.
  unfold present_nonempty. destruct (get data f) as [v|]; cbn; [|discriminate].
  intros Htruthy. exists v. split; [reflexivity|].
  intros ->. cbn in Htruthy. discriminate.
Qed.

Lemma absent_not_truthy (data : Record) (f : string) :
  ~ present_nonempty data f -> truthy_opt (get data f) = false.
Proof.
  intros Habsent. destruct (truthy_opt (get data f)) eqn:Htruthy; [|reflexivity].
  elim Habsent. now apply truthy_present.
Qed.

Lemma member_own (m : Store) (key : string) (data : Record) :
  assoc key m = Some data -> member m key = Own data.
Proof. intros Hassoc. unfold member. now rewrite Hassoc. Qed.

(** *** [src/app.js] *)

Lemma Indirect_homeFiles_perm (m : Store) :
  Permutation (Indirect.homeFiles m) (Indirect_candidates m).
Proof. apply sort_perm. Qed.

Lemma Indirect_homeFiles_in (m : Store) (item : Indirect.Item) :
  In item (Indirect.homeFiles m)
  <-> Indirect.complete item = true
      /\ In (Indirect.path item) (keys m)
      /\ endsWith (Indirect.path item) "_home.html" = true
      /\ Indirect.data item = fields (member m (Indirect.path item)).
Proof.
  unfold Indirect.homeFiles. rewrite sort_in, filter_In, in_map_iff. split.
  - intros [[path [<- Hpath]] Hcomplete]. apply filter_In in Hpath.
    cbn. tauto.
  - intros [Hcomplete [Hkey [Hend Hdata]]]. split; [|exact Hcomplete].
    exists (Indirect.path item). split.
    + destruct item as [p d]. cbn in *. now subst d.
    + apply filter_In. now split.
Qed.

Lemma Indirect_complete_fields (item : Indirect.Item) (f : string) :
  Indirect.complete item = true -> In f requiredFields ->
  truthy_opt (get (Indirect.data item) f) = true.
Proof.
  unfold Indirect.complete. rewrite !andb_true_iff.
  intros [[[H1 H2] H3] H4] [<-|[<-|[<-|[<-|[]]]]]; assumption.
Qed.

(** *** [src/unnamed/part_000] *)

Lemma Direct_testRuns_perm (m : Store) :
  Permutation (Direct.testRuns m) (Direct_candidates m).
Proof. apply sort_perm. Qed.

Lemma Direct_testRuns_in (m : Store) (item : Direct.Item) :
  In item (Direct.testRuns m)
  <-> Direct.complete item = true
      /\ In (Direct.gitHash item) (keys m)
      /\ Direct.data item = fields (member m (Direct.gitHash item)).
Proof.
  unfold Direct.testRuns. rewrite sort_in, filter_In, in_map_iff. split.
  - intros [[gitHash [<- Hkey]] Hcomplete]. cbn. tauto.
  - intros [Hcomplete [Hkey Hdata]]. split; [|exact Hcomplete].
    exists (Direct.gitHash item). split; [|exact Hkey].
    destruct item as [g d]. cbn in *. now subst d.
Qed.

Lemma Direct_complete_fields (item : Direct.Item) (f : string) :
  Direct.complete item = true -> In f requiredFields ->
  truthy_opt (get (Direct.data item) f) = true.
Proof.
  unfold Direct.complete. rewrite !andb_true_iff.
  intros [[[H1 H2] H3] H4] [<-|[<-|[<-|[<-|[]]]]]; assumption.
Qed.

(** C4.  In both files every item the home table has a row for holds all
    of [patch_revision], [change_id], [subject] and [time_stamp], none of
    them the empty string; and a Record of the store that lacks one of
    the four, or has the empty string there, has no row. *)
Theorem home_rows_have_required_fields (m : Store) :
  (forall item f,
      In item (Indirect.homeFiles m) -> In f requiredFields ->
      present_nonempty (Indirect.data item) f)
  /\ (forall item f,
        In item (Direct.testRuns m) -> In f requiredFields ->
        present_nonempty (Direct.data item) f)
  /\ (forall key data f,
        assoc key m = Some data -> In f requiredFields ->
        ~ present_nonempty data f ->
        ~ In key (map Indirect.path (Indirect.homeFiles m))
        /\ ~ In key (map Direct.gitHash (Direct.testRuns m))).
Proof.
  split; [|split].
  - intros item f Hin Hf. apply Indirect_homeFiles_in in Hin.
    destruct Hin as [Hcomplete _].
    now apply truthy_present, Indirect_complete_fields.
  - intros item f Hin Hf. apply Direct_testRuns_in in Hin.
    destruct Hin as [Hcomplete _].
    now apply truthy_present, Direct_complete_fields.
  - intros key data f Hassoc Hf Habsent.
    apply absent_not_truthy in Habsent. split.
    + intros Hin. apply in_map_iff in Hin. destruct Hin as [item [<- Hin]].
      apply Indirect_homeFiles_in in Hin. destruct Hin as [Hcomplete [_ [_ Hdata]]].
      rewrite (member_own _ _ _ Hassoc) in Hdata. cbn in Hdata.
      pose proof (Indirect_complete_fields item f Hcomplete Hf) as Htruthy.
      rewrite Hdata in Htruthy. congruence.
    + intros Hin. apply in_map_iff in Hin. destruct Hin as [item [<- Hin]].
      apply Direct_testRuns_in in Hin. destruct Hin as [Hcomplete [_ Hdata]].
      rewrite (member_own _ _ _ Hassoc) in Hdata. cbn in Hdata.
      pose proof (Direct_complete_fields item f Hcomplete Hf) as Htruthy.
      rewrite Hdata in Htruthy. congruence.
Qed.

End Home.

(** ** The order of the home rows, by file *)

Section HomeOrder.
Context {host : Host}.

Lemma Indirect_time_complete (item : Indirect.Item) :
  Indirect.complete item = true ->
  parseFloat_or_0 (get (Indirect.data item) "time_stamp") = Indirect_time item.
Proof.
  intros Hcomplete. unfold parseFloat_or_0.
  rewrite (Indirect_complete_fields item "time_stamp" Hcomplete); [reflexivity|].
  cbn. tauto.
Qed.

Lemma Direct_time_complete (item : Direct.Item) :
  Direct.complete item = true ->
  parseFloat_or_0 (get (Direct.data item) "time_stamp") = Direct_time item.
Proof.
  intros Hcomplete. unfold parseFloat_or_0.
  rewrite (Direct_complete_fields item "time_stamp" Hcomplete); [reflexivity|].
  cbn. tauto.
Qed.

Lemma Indirect_homeFiles_sorted (m : Store) :
  Forall (fun item => isNaN (Indirect_time item) = false) (Indirect.homeFiles m) ->
  StronglySorted (not_older Indirect_time) (Indirect.homeFiles m).
Proof.
  intros Hparse.
  assert (Hcomplete : forall item, In item (Indirect.homeFiles m) ->
                                   Indirect.complete item = true)
    by (intros item Hin; now apply Indirect_homeFiles_in in Hin).
  set (time0 := fun item : Indirect.Item =>
                  parseFloat_or_0 (get (Indirect.data item) "time_stamp")).
  apply StronglySorted_in_impl with (R := not_older time0).
  - intros a b Ha Hb. unfold not_older, time0.
    now rewrite !Indirect_time_complete by now apply Hcomplete.
  - change (Indirect.homeFiles m)
      with (sort (by_time time0) (Indirect_candidates m)).
    apply sort_sorted.
    apply (Permutation_Forall (x := Indirect.homeFiles m));
      [apply Indirect_homeFiles_perm|].
    rewrite Forall_forall in *. intros item Hin. unfold time0.
    rewrite Indirect_time_complete by now apply Hcomplete.
    now apply Hparse.
Qed.

Lemma Direct_testRuns_sorted (m : Store) :
  Forall (fun item => isNaN (Direct_time item) = false) (Direct.testRuns m) ->
  StronglySorted (not_older Direct_time) (Direct.testRuns m).
Proof.
  intros Hparse.
  assert (Hcomplete : forall item, In item (Direct.testRuns m) ->
                                   Direct.complete item = true)
    by (intros item Hin; now apply Direct_testRuns_in in Hin).
  set (time0 := fun item : Direct.Item =>
                  parseFloat_or_0 (get (Direct.data item) "time_stamp")).
  apply StronglySorted_in_impl with (R := not_older time0).
  - intros a b Ha Hb. unfold not_older, time0.
    now rewrite !Direct_time_complete by now apply Hcomplete.
  - change (Direct.testRuns m)
      with (sort (by_time time0) (Direct_candidates m)).
    apply sort_sorted.
    apply (Permutation_Forall (x := Direct.testRuns m));
      [apply Direct_testRuns_perm|].
    rewrite Forall_forall in *. intros item Hin. unfold time0.
    rewrite Direct_time_complete by now apply Hcomplete.
    now apply Hparse.
Qed.

(** X16.  What does hold of the order.  In both files, when the time stamp of
    every listed Record parses as a number, each row's parsed time stamp
    is at least that of every row after it.  Whether or not the time
    stamps parse, the rows are exactly the complete Records: a time stamp
    that does not parse removes no row and stops nothing. *)
Theorem home_rows_newest_first (m : Store) :
  (Forall (fun item => isNaN (Indirect_time item) = false) (Indirect.homeFiles m) ->
   StronglySorted (not_older Indirect_time) (Indirect.homeFiles m))
  /\ (Forall (fun item => isNaN (Direct_time item) = false) (Direct.testRuns m) ->
      StronglySorted (not_older Direct_time) (Direct.testRuns m))
  /\ Permutation (Indirect.homeFiles m) (Indirect_candidates m)
  /\ Permutation (Direct.testRuns m) (Direct_candidates m).
Proof.
  split; [apply Indirect_homeFiles_sorted|].
  split; [apply Direct_testRuns_sorted|].
  split; [apply Indirect_homeFiles_perm | apply Direct_testRuns_perm].
Qed.

End HomeOrder.

(** ** Resolving [review/<id>] *)

Lemma find_first {A : Type} (p : A -> bool) (before after : list A) (x : A) :
  p x = true -> (forall y, In y before -> p y = false) ->
  find p (before ++ x :: after) = Some x.
Proof.
  intros Hx Hbefore. induction before as [|y before IH]; cbn.
  - now rewrite Hx.
  - rewrite (Hbefore y) by now left. apply IH. intros z Hz. apply Hbefore. now right.
Qed.

Lemma find_none_iff {A : Type} (p : A -> bool) (l : list A) :
  find p l = None <-> forall x, In x l -> p x = false.
Proof.
  split; [apply find_none|].
  induction l as [|y l IH]; cbn; [reflexivity|]. intros Hall.
  rewrite (Hall y) by now left. apply IH. intros x Hx. apply Hall. now right.
Qed.

Section Resolution.
Context {host : Host}.

Lemma strict_eq_string_spec (x : option Value) (s : string) :
  strict_eq_string x s = true <-> x = Some (VStr s).
Proof.
  unfold strict_eq_string. destruct x as [[t|n|b]|]; try (split; discriminate).
  rewrite String.eqb_eq. split; [now intros -> | now intros [= ->]].
Qed.

Lemma home_file_not_empty (p : string) :
  endsWith p "_home.html" = true -> String.eqb p "" = false.
Proof.
  intros Hend. apply endsWith_spec in Hend. destruct Hend as [t ->].
  destruct t; reflexivity.
Qed.

(** A key found by [showReviewByChangeId] ends in [_home.html], is a key
    of the store, and its Record has the requested change id. *)
Lemma findHomeFile_some (m : Store) (id p : string) :
  Indirect.findHomeFile m id = Some p ->
  In p (keys m) /\ endsWith p "_home.html" = true
  /\ exists data, assoc p m = Some data /\ get data "change_id" = Some (VStr id).
Proof.
  unfold Indirect.findHomeFile. intros Hfind. apply find_some in Hfind.
  destruct Hfind as [Hin Hmatch]. apply filter_In in Hin. destruct Hin as [Hkey Hend].
  split; [exact Hkey|]. split; [exact Hend|].
  destruct (assoc_in_keys p m Hkey) as [data Hdata].
  exists data. split; [exact Hdata|].
  rewrite (member_own _ _ _ Hdata) in Hmatch. cbn in Hmatch.
  now apply strict_eq_string_spec.
Qed.

(** The first key ending in [_home.html] with the requested change id is
    the one found, whatever the keys before it that do not end in
    [_home.html] hold. *)
Lemma findHomeFile_first (m : Store) (id : string)
      (before after : list string) (homeFile : string) (data : Record) :
  keys m = (before ++ homeFile :: after)%list ->
  endsWith homeFile "_home.html" = true ->
  assoc homeFile m = Some data ->
  get data "change_id" = Some (VStr id) ->
  (forall p d, In p before -> endsWith p "_home.html" = true ->
               assoc p m = Some d -> get d "change_id" <> Some (VStr id)) ->
  Indirect.findHomeFile m id = Some homeFile.
Proof.
  intros Hkeys Hend Hdata Hid Hbefore. unfold Indirect.findHomeFile.
  rewrite Hkeys, filter_app. cbn [filter]. rewrite Hend.
  apply find_first.
  - rewrite (member_own _ _ _ Hdata). cbn. now apply strict_eq_string_spec.
  - intros p Hp. apply filter_In in Hp. destruct Hp as [Hin Hpend].
    assert (Hkey : In p (keys m)) by (rewrite Hkeys; apply in_or_app; now left).
    destruct (assoc_in_keys p m Hkey) as [d Hd].
    rewrite (member_own _ _ _ Hd). cbn.
    destruct (strict_eq_string (get d "change_id") id) eqn:Heq; [|exact Heq].
    apply strict_eq_string_spec in Heq. now elim (Hbefore p d Hin Hpend Hd).
Qed.

Lemma Indirect_showTestDetail_own (st : App) (m : Store) (homePath : string) (data : Record) :
  metadata st = Some m -> assoc homePath m = Some data ->
  Indirect.showTestDetail homePath st
  = Some (set_content
            (Indirect.detailHtml (or_else (get data "subject") (VStr "Unknown"))
               (Indirect.detailResults homePath data))
            (set_currentView "detail" st)).
Proof.
  intros Hm Hdata. unfold Indirect.showTestDetail. cbn [metadata set_currentView].
  rewrite Hm, (member_own _ _ _ Hdata). reflexivity.
Qed.

(** C6.  In [src/app.js], for the fragment [#review/<id>]: the first key of
    the store that ends in [_home.html] and whose Record has [change_id]
    equal to [<id>] is the one whose detail view is entered; keys before
    it that do not end in [_home.html] are passed over whatever their
    [change_id], and a key that is found always ends in [_home.html]. *)
Theorem change_id_resolves_first_home_file
        (response : Fetched) (st : App) (m : Store) (id : string)
        (before after : list string) (homeFile : string) (data : Record) :
  metadata st = Some m ->
  hash st = "#review/" ++ id ->
  keys m = (before ++ homeFile :: after)%list ->
  endsWith homeFile "_home.html" = true ->
  assoc homeFile m = Some data ->
  get data "change_id" = Some (VStr id) ->
  (forall p d, In p before -> endsWith p "_home.html" = true ->
               assoc p m = Some d -> get d "change_id" <> Some (VStr id)) ->
  Indirect.handleRoute response st
  = Some (set_content
            (Indirect.detailHtml (or_else (get data "subject") (VStr "Unknown"))
               (Indirect.detailResults homeFile data))
            (set_currentView "detail" st))
  /\ (forall p, Indirect.findHomeFile m id = Some p ->
                endsWith p "_home.html" = true).
Proof.
  intros Hm Hhash Hkeys Hend Hdata Hid Hbefore. split.
  - unfold Indirect.handleRoute. rewrite Hhash, startsWith_append.
    rewrite substring_from_append.
    unfold Indirect.showReviewByChangeId. rewrite Hm.
    rewrite (findHomeFile_first m id before after homeFile data) by assumption.
    rewrite (home_file_not_empty homeFile Hend). cbn [negb].
    now apply Indirect_showTestDetail_own with m.
  - intros p Hfind. now apply findHomeFile_some in Hfind.
Qed.

(** *** Identifiers that resolve to nothing *)

(** [src/app.js]: without a matching home file the error view is
    entered, and its message holds the identifier. *)
Lemma Indirect_unresolved_is_error (response : Fetched) (st : App) (id : string) :
  hash st = "#review/" ++ id ->
  Indirect.findHomeFile (match metadata st with Some m => m | None => [] end) id = None ->
  Indirect.handleRoute response st
  = Some (showError ("Review with change ID " ++ id ++ " not found") st)
  /\ Occurs id ("Review with change ID " ++ id ++ " not found").
Proof.
  intros Hhash Hnone. split.
  - unfold Indirect.handleRoute. rewrite Hhash, startsWith_append.
    rewrite substring_from_append.
    unfold Indirect.showReviewByChangeId. now rewrite Hnone.
  - now exists "Review with change ID ", " not found".
Qed.

(** [src/unnamed/part_000]: when the member read gives [undefined], the
    error view is entered, and its message holds the identifier. *)
Lemma Direct_undefined_is_error (response : Fetched) (st : App) (id : string) :
  hash st = "#review/" ++ id ->
  match metadata st with
  | Some m => member m id = Undefined
  | None => True
  end ->
  Direct.handleRoute response st
  = Some (showError ("Review with git hash " ++ id ++ " not found") st)
  /\ Occurs id ("Review with git hash " ++ id ++ " not found").
Proof.
  intros Hhash Hundef. split.
  - unfold Direct.handleRoute. rewrite Hhash, startsWith_append.
    rewrite substring_from_append.
    unfold Direct.showReviewByGitHash.
    destruct (metadata st) as [m|]; [|reflexivity]. now rewrite Hundef.
  - now exists "Review with git hash ", " not found".
Qed.

(** [src/unnamed/part_000]: an identifier that is no key of the store
    but names a property of [Object.prototype] passes the check of
    [showReviewByGitHash], and the detail view of an empty Record is
    written. *)
Lemma Direct_inherited_is_detail (response : Fetched) (st : App) (m : Store) (id : string) :
  hash st = "#review/" ++ id ->
  metadata st = Some m ->
  assoc id m = None ->
  existsb (String.eqb id) Object_prototype = true ->
  Direct.handleRoute response st
  = Some (set_content (Direct.detailHtml (VStr "Unknown") [])
            (set_currentView "detail" st)).
Proof.
  intros Hhash Hm Hassoc Hproto.
  assert (Hmember : member m id = Inherited)
    by (unfold member; now rewrite Hassoc, Hproto).
  unfold Direct.handleRoute. rewrite Hhash, startsWith_append.
  rewrite substring_from_append.
  unfold Direct.showReviewByGitHash. rewrite Hm, Hmember. cbn [Member_truthy].
  unfold Direct.showTestDetail. cbn [metadata set_currentView].
  rewrite Hm, Hmember. reflexivity.
Qed.

End Resolution.

(** ** Filters *)

Lemma has_token_remove (token : string) (l : list string) :
  has_token token (filter (fun t => negb (String.eqb token t)) l) = false.
Proof.
  unfold has_token. induction l as [|t l IH]; cbn; [reflexivity|].
  destruct (String.eqb token t) eqn:Heq; cbn; [exact IH|].
  now rewrite Heq.
Qed.

Lemma has_other_token_remove (token other : string) (l : list string) :
  other <> token ->
  has_token other (filter (fun t => negb (String.eqb token t)) l) = has_token other l.
Proof.
  intros Hother. unfold has_token. induction l as [|t l IH]; cbn; [reflexivity|].
  destruct (String.eqb token t) eqn:Heq; cbn.
  - apply String.eqb_eq in Heq. subst t.
    apply String.eqb_neq in Hother. now rewrite Hother.
  - now rewrite IH.
Qed.

Lemma has_token_add (token : string) (l : list string) :
  has_token token (if has_token token l then l else (l ++ [token])%list) = true.
Proof.
  destruct (has_token token l) eqn:Hhas; [exact Hhas|].
  unfold has_token. rewrite existsb_app. cbn. rewrite String.eqb_refl.
  now rewrite orb_true_r.
Qed.

Lemma has_other_token_add (token other : string) (l : list string) :
  other <> token ->
  has_token other (if has_token token l then l else (l ++ [token])%list)
  = has_token other l.
Proof.
  intros Hother. destruct (has_token token l); [reflexivity|].
  unfold has_token. rewrite existsb_app. cbn.
  apply String.eqb_neq in Hother. rewrite Hother. now rewrite !orb_false_r.
Qed.

Lemma marked_spec (matches : bool) (row : Tr) :
  hidden_iff (matches = false) row (marked matches row).
Proof.
  unfold hidden_iff, marked.
  destruct matches; cbn [classList_remove classList_add cells classList].
  - split; [reflexivity|]. split.
    + rewrite has_token_remove. split; discriminate.
    + intros token Hother. now apply has_other_token_remove.
  - split; [reflexivity|]. split.
    + rewrite has_token_add. split; reflexivity.
    + intros token Hother. now apply has_other_token_add.
Qed.

Lemma update_first_at {A : Type} (p : A -> bool) (f : A -> A)
      (before after : list A) (x : A) :
  p x = true -> (forall y, In y before -> p y = false) ->
  update_first p f (before ++ x :: after) = (before ++ f x :: after)%list.
Proof.
  intros Hx Hbefore. induction before as [|y before IH]; cbn.
  - now rewrite Hx.
  - rewrite (Hbefore y) by now left. f_equal. apply IH.
    intros z Hz. apply Hbefore. now right.
Qed.

Lemma update_first_none {A : Type} (p : A -> bool) (f : A -> A) (l : list A) :
  (forall y, In y l -> p y = false) -> update_first p f l = l.
Proof.
  induction l as [|y l IH]; intros Hall; cbn; [reflexivity|].
  rewrite (Hall y) by now left. f_equal. apply IH.
  intros z Hz. apply Hall. now right.
Qed.

Lemma Forall2_map_right {A B : Type} (P : A -> B -> Prop) (f : A -> B) (l : list A) :
  (forall x, P x (f x)) -> Forall2 P l (map f l).
Proof. intros HP. induction l; cbn; constructor; auto. Qed.

Lemma axis_match_false (selected stored : string) :
  String.eqb selected "All" || String.eqb stored selected = false
  <-> axis_mismatch selected stored.
Proof.
  unfold axis_mismatch. rewrite orb_false_iff, !String.eqb_neq. tauto.
Qed.

Section Filters.
Context {host : Host}.

(** C8.  [updateFilter] (detail view, one axis) turns to the first table of
    class [test-results-table] and leaves each of its rows carrying the
    [filtered] token exactly when the selected status is neither "All" nor
    the trimmed text of the row's fifth cell.  [updateHomeFilter] (home
    view of [src/unnamed/part_000], two axes) turns to the first table and
    leaves each row carrying [filtered] exactly when the enforced axis or
    the optional axis is neither "All" nor the text of the row's seventh,
    respectively eighth, cell.  Both leave the cells, the other class
    tokens, the radios, the other tables and the application state,
    metadata included, as they were. *)
Theorem filters_hide_exactly_the_mismatches
        (st : App) (doc : Document) (before after : list Table) (table : Table) :
  tables doc = (before ++ table :: after)%list ->
  (has_token "test-results-table" (className table) = true ->
   (forall t, In t before -> has_token "test-results-table" (className t) = false) ->
   exists rows',
     updateFilter st doc
     = (st, {| radios := radios doc;
               tables := (before
                          ++ {| className := className table; rows := rows' |}
                          :: after)%list |})
     /\ Forall2
          (fun row row' =>
             hidden_iff (axis_mismatch (getSelectedFilter doc) (getRowStatus row))
                        row row')
          (rows table) rows')
  /\ (before = [] ->
      exists rows',
        Direct.updateHomeFilter st doc
        = (st, {| radios := radios doc;
                  tables := {| className := className table; rows := rows' |}
                            :: after |})
        /\ Forall2
             (fun row row' =>
                hidden_iff
                  (axis_mismatch (getSelectedEnforcedFilter doc) (getRowEnforcedStatus row)
                   \/ axis_mismatch (getSelectedOptionalFilter doc) (getRowOptionalStatus row))
                  row row')
             (rows table) rows').
Proof.
  intros Htables. split.
  - intros Hclass Hbefore. eexists. split.
    + unfold updateFilter. rewrite Htables.
      rewrite update_first_at by assumption. reflexivity.
    + cbn [with_rows rows]. apply Forall2_map_right. intros row.
      destruct (marked_spec
                  (String.eqb (getSelectedFilter doc) "All"
                   || String.eqb (getRowStatus row) (getSelectedFilter doc)) row)
        as [Hcells [Hhidden Hothers]].
      split; [exact Hcells|]. split; [|exact Hothers].
      rewrite <- axis_match_false. exact Hhidden.
  - intros ->. eexists. split.
    + unfold Direct.updateHomeFilter. rewrite Htables. reflexivity.
    + cbn [with_rows rows]. apply Forall2_map_right. intros row.
      destruct (marked_spec
                  ((String.eqb (getSelectedEnforcedFilter doc) "All"
                    || String.eqb (getRowEnforcedStatus row) (getSelectedEnforcedFilter doc))
                   && (String.eqb (getSelectedOptionalFilter doc) "All"
                       || String.eqb (getRowOptionalStatus row)
                            (getSelectedOptionalFilter doc))) row)
        as [Hcells [Hhidden Hothers]].
      split; [exact Hcells|]. split; [|exact Hothers].
      rewrite <- !axis_match_false, <- andb_false_iff. exact Hhidden.
Qed.

(** Without a table of class [test-results-table], [updateFilter] changes
    nothing. *)
Lemma updateFilter_no_table (st : App) (doc : Document) :
  (forall t, In t (tables doc) -> has_token "test-results-table" (className t) = false) ->
  updateFilter st doc = (st, doc).
Proof.
  intros Hnone. unfold updateFilter. rewrite update_first_none by assumption.
  now destruct doc.
Qed.

End Filters.

(** ** Escaping *)

Section Escaping.
Context {host : Host}.

(** A text that went through [escapeHtml] holds no angle bracket. *)
Lemma serializeText_no_bracket (s : string) :
  includes (serializeText s) "<" = false /\ includes (serializeText s) ">" = false.
Proof.
  induction s as [|c s [IHlt IHgt]]; [split; reflexivity|].
  cbn [serializeText].
  destruct (Ascii.eqb c "&"%char) eqn:Hamp; [cbn; rewrite IHlt, IHgt; now split|].
  destruct (Ascii.eqb c "160"%char) eqn:Hnbsp; [cbn; rewrite IHlt, IHgt; now split|].
  destruct (Ascii.eqb c "<"%char) eqn:Hlt; [cbn; rewrite IHlt, IHgt; now split|].
  destruct (Ascii.eqb c ">"%char) eqn:Hgt; [cbn; rewrite IHlt, IHgt; now split|].
  apply Ascii.eqb_neq in Hlt, Hgt.
  cbn [append includes String.prefix]. rewrite IHlt, IHgt.
  destruct (ascii_dec "<" c) as [Heq|_]; [now elim Hlt|].
  destruct (ascii_dec ">" c) as [Heq|_]; [now elim Hgt|].
  now split.
Qed.

(** A subject holding a script tag is shown with its brackets as
    entities. *)
Lemma escapeHtml_script :
  escapeHtml (str "<script>alert(1)</script>")
  = "&lt;script&gt;alert(1)&lt;/script&gt;".
Proof. reflexivity. Qed.

(** No quote is touched by [escapeHtml]. *)
Lemma escapeHtml_quotes : escapeHtml (str (dq ++ "'")) = dq ++ "'".
Proof. reflexivity. Qed.

End Escaping.

(** ** The scenarios of the specification, run *)

Section Scenarios.
#[local] Existing Instance integerHost.

(** Scenario 6: the detail view of [#review/abc123] has one row, Build,
    Enforced, PASS. *)
Example direct_key_scenario :
  Direct.detailResults "abc123" build_record
  = [ {| result := {| name := "Build"; rc := 0; enforced := true |};
         runtime := VStr "N/A"; description := VStr "Job: Build";
         logPath := "abc123_build.log" |} ]
  /\ option_map currentView (Direct.handleRoute NotOk (app_at direct_store "#review/abc123"))
     = Some "detail".
Proof. split; vm_compute; reflexivity. Qed.

(** Scenario 8: with the filter on FAIL, the PASS row gets the token and
    the FAIL row does not. *)
Example filter_scenario :
  map classList (flat_map rows (tables (snd (updateFilter (app_at direct_store "") detail_document))))
  = [ [ "filtered" ]; [] ].
Proof. vm_compute; reflexivity. Qed.

(** C2, where the code falls short of it.  [showHome] of [src/app.js]
    writes [patch_revision] into the [href] of the revision link as it
    is, so that markup in the Record arrives in the page as markup; and
    [escapeHtml] leaves both quotes alone, so that in the results table of
    both files a quote in a test name ends the string literal of the
    [onclick] handler it is written into. *)
Theorem record_text_reaches_markup_unescaped :
  includes (content (Indirect.showHome (app_at markup_revision "")))
           (dq ++ "><script>alert(1)</script>" ++ dq) = true
  /\ includes (content (Direct.showHome (app_at markup_revision "")))
              "<script>" = false
  /\ escapeHtml (str (dq ++ "'")) = dq ++ "'"
  /\ option_map
       (fun st => includes (content st)
                    "app.showLog('abc123_');alert(1);//.log', '');alert(1);//'); return false;")
       (Direct.handleRoute NotOk (app_at quoted_test "#review/abc123"))
     = Some true.
Proof.
  split; [vm_compute; reflexivity|].
  split; [vm_compute; reflexivity|].
  split; vm_compute; reflexivity.
Qed.

(** C5, where the code falls short of it.  The comparator has a fallback
    for a missing time stamp ([|| 0], the oldest time, hence the last row)
    but none for one that is no number: the Record with time stamp
    "yesterday" stays in the first row, ahead of a Record whose time stamp
    is a number, in both files.  The only comparison there is to make
    answers NaN, a tie, and a stable sort leaves a tie in place. *)
Theorem unparsed_time_stamp_stays_first :
  map Indirect.path (Indirect.homeFiles unparsed_first) = [ "1_home.html"; "2_home.html" ]
  /\ map Indirect_time (Indirect.homeFiles unparsed_first) = [ NaN; Fin 1700000000 ]
  /\ map Direct_time (Direct.testRuns unparsed_first) = [ NaN; Fin 1700000000 ]
  /\ ~ newest_first_NaN_last Indirect_time (Indirect.homeFiles unparsed_first)
  /\ ~ newest_first_NaN_last Direct_time (Direct.testRuns unparsed_first).
Proof.
  split; [vm_compute; reflexivity|].
  split; [vm_compute; reflexivity|].
  split; [vm_compute; reflexivity|].
  split.
  - intros Hclaim.
    assert (Hrows : Indirect.homeFiles unparsed_first
                    = [ {| Indirect.path := "1_home.html";
                           Indirect.data := record_at "yesterday" |};
                        {| Indirect.path := "2_home.html";
                           Indirect.data := record_at "1700000000" |} ])
      by (vm_compute; reflexivity).
    rewrite Hrows in Hclaim.
    destruct (Hclaim [] _ [] _ [] eq_refl) as [Hlast _].
    discriminate (Hlast eq_refl).
  - intros Hclaim.
    assert (Hrows : Direct.testRuns unparsed_first
                    = [ {| Direct.gitHash := "1_home.html";
                           Direct.data := record_at "yesterday" |};
                        {| Direct.gitHash := "2_home.html";
                           Direct.data := record_at "1700000000" |} ])
      by (vm_compute; reflexivity).
    rewrite Hrows in Hclaim.
    destruct (Hclaim [] _ [] _ [] eq_refl) as [Hlast _].
    discriminate (Hlast eq_refl).
Qed.

(** C7, where the code falls short of it.  In [src/unnamed/part_000] the
    fragment [#review/constructor] names no key of the store, yet the
    member read finds [Object.prototype.constructor], the check of
    [showReviewByGitHash] passes and a detail view (subject "Unknown", no
    rows) is written instead of the error view. *)
Theorem inherited_name_opens_detail_view :
  assoc "constructor" direct_store = None
  /\ Direct.handleRoute NotOk (app_at direct_store "#review/constructor")
     = Some (set_content (Direct.detailHtml (VStr "Unknown") [])
               (set_currentView "detail" (app_at direct_store "#review/constructor")))
  /\ option_map (fun st => includes (content st) "not found")
       (Direct.handleRoute NotOk (app_at direct_store "#review/constructor"))
     = Some false
  /\ option_map (fun st => includes (content st) "not found")
       (Direct.handleRoute NotOk (app_at direct_store "#review/doesnotexist"))
     = Some true.
Proof.
  split; [reflexivity|]. split.
  - apply (Direct_inherited_is_detail NotOk _ direct_store "constructor"); reflexivity.
  - split; vm_compute; reflexivity.
Qed.

(** *** The theorems at the scenarios *)


(** The Record without subject has no row; the complete one has its four
    fields. *)
Lemma home_rows_have_required_fields_at_one_incomplete :
  (~ In "1_home.html" (map Indirect.path (Indirect.homeFiles one_incomplete))
   /\ ~ In "1_home.html" (map Direct.gitHash (Direct.testRuns one_incomplete)))
  /\ present_nonempty (record_at "1700000000") "subject".
Proof.
  destruct (home_rows_have_required_fields one_incomplete) as [Hrows [_ Hmissing]].
  split.
  - eapply (Hmissing "1_home.html" _ "subject").
    + reflexivity.
    + simpl. right. right. left. reflexivity.
    + intros [v [Hget _]]. discriminate Hget.
  - apply (Hrows {| Indirect.path := "2_home.html";
                    Indirect.data := record_at "1700000000" |} "subject").
    + vm_compute. left. reflexivity.
    + simpl. right. right. left. reflexivity.
Defined.

(** Two Records with numeric time stamps come out newest first. *)
Lemma home_rows_newest_first_at_two_runs :
  StronglySorted (not_older Indirect_time) (Indirect.homeFiles two_runs)
  /\ StronglySorted (not_older Direct_time) (Direct.testRuns two_runs).
Proof.
  destruct (home_rows_newest_first two_runs) as [Hindirect [Hdirect _]].
  split.
  - apply Hindirect. apply Forall_forall. intros item Hin.
    vm_compute in Hin. destruct Hin as [<-|[<-|[]]]; reflexivity.
  - apply Hdirect. apply Forall_forall. intros item Hin.
    vm_compute in Hin. destruct Hin as [<-|[<-|[]]]; reflexivity.
Defined.

Example two_runs_order :
  map Indirect.path (Indirect.homeFiles two_runs) = [ "2_home.html"; "1_home.html" ].
Proof. vm_compute; reflexivity. Qed.

(** Scenario 7: [#review/200] enters the detail view of the home file
    whose Record has change id 200. *)
Lemma change_id_resolves_at_200 :
  Indirect.handleRoute NotOk (app_at indirect_store "#review/200")
  = Some (set_content
            (Indirect.detailHtml (VStr "Fix bug")
               (Indirect.detailResults home_200 record_200))
            (set_currentView "detail" (app_at indirect_store "#review/200"))).
Proof.
  apply (change_id_resolves_first_home_file NotOk
           (app_at indirect_store "#review/200") indirect_store "200"
           [] [] home_200 record_200);
    try reflexivity.
  intros p d Hin. destruct Hin.
Defined.

(** Scenario 8 and its home counterpart. *)
Lemma filters_hide_at_scenarios :
  (exists rows',
      updateFilter (app_at direct_store "") detail_document
      = (app_at direct_store "",
         {| radios := radios detail_document;
            tables := [ {| className := className detail_table; rows := rows' |} ] |})
      /\ Forall2
           (fun row row' =>
              hidden_iff (axis_mismatch (getSelectedFilter detail_document)
                                        (getRowStatus row)) row row')
           (rows detail_table) rows')
  /\ (exists rows',
        Direct.updateHomeFilter (app_at direct_store "") home_document
        = (app_at direct_store "",
           {| radios := radios home_document;
              tables := [ {| className := className home_table; rows := rows' |} ] |})
        /\ Forall2
             (fun row row' =>
                hidden_iff
                  (axis_mismatch (getSelectedEnforcedFilter home_document)
                                 (getRowEnforcedStatus row)
                   \/ axis_mismatch (getSelectedOptionalFilter home_document)
                                    (getRowOptionalStatus row)) row row')
             (rows home_table) rows').
Proof.
  split.
  - apply (proj1 (filters_hide_exactly_the_mismatches
                    (app_at direct_store "") detail_document [] [] detail_table
                    eq_refl)).
    + reflexivity.
    + intros t Hin. destruct Hin.
  - apply (proj2 (filters_hide_exactly_the_mismatches
                    (app_at direct_store "") home_document [] [] home_table
                    eq_refl)).
    reflexivity.
Defined.

(** The log paths of the two scenarios. *)
Lemma log_path_of_outcome_at_scenarios :
  (exists normal,
      normalized "Build" normal
      /\ "abc123_build.log" = "abc123" ++ "_" ++ normal ++ ".log")
  /\ (exists webPath prefix normal,
        without_prefix "/var/www/ci-lustre/upstream-patch-review/" home_200 webPath
        /\ without_suffix "_home.html" webPath prefix
        /\ normalized "Unit Tests" normal
        /\ "200_unit_tests.log" = prefix ++ "_" ++ normal ++ ".log").
Proof.
  split.
  - apply (proj1 (log_path_of_outcome "abc123" build_record build_outcome)).
    vm_compute. left. reflexivity.
  - apply (proj2 (log_path_of_outcome home_200 record_200 unit_tests_outcome)).
    vm_compute. left. reflexivity.
Defined.

(** [#garbage] shows the home view in both files. *)
Lemma other_fragments_route_home_at_garbage :
  Indirect.handleRoute NotOk (app_at indirect_store "#garbage")
  = Some (Indirect.showHome (app_at indirect_store "#garbage"))
  /\ Direct.handleRoute NotOk (app_at indirect_store "#garbage")
     = Some (Direct.showHome (app_at indirect_store "#garbage")).
Proof.
  destruct (other_fragments_route_home NotOk (app_at indirect_store "#garbage")
              eq_refl eq_refl) as [[Hindirect _] [[Hdirect _] _]].
  split; assumption.
Defined.

End Scenarios.

(* ================================================================== *)
(** * Part III: further properties of the code *)
(* ================================================================== *)

(** ** Outcomes and summaries *)

Lemma forallb_perm {A : Type} (f : A -> bool) (l l' : list A) :
  Permutation l l' -> forallb f l = forallb f l'.
Proof.
  induction 1 as [|x l l' _ IH|x y l|l l' l'' _ IH1 _ IH2]; cbn.
  - reflexivity.
  - now rewrite IH.
  - now rewrite !andb_assoc, (andb_comm (f y) (f x)).
  - now rewrite IH1.
Qed.

(** X4.  [summarize] does not look at the order of the results. *)
Theorem summarize_ignores_order (results results' : list Result) :
  Permutation results results' -> summarize results = summarize results'.
Proof.
  intros Hperm. unfold summarize.
  rewrite (Permutation_length Hperm).
  now rewrite (forallb_perm _ _ _ Hperm).
Qed.

(** X5.  The summary of two lists put together: FAIL as soon as one of them
    is FAIL, N/A only when both are N/A, PASS otherwise. *)
Theorem summarize_of_both (a b : list Result) :
  (text (summarize (a ++ b)) = "FAIL"
   <-> text (summarize a) = "FAIL" \/ text (summarize b) = "FAIL")
  /\ (text (summarize (a ++ b)) = "N/A"
      <-> text (summarize a) = "N/A" /\ text (summarize b) = "N/A")
  /\ (text (summarize (a ++ b)) = "PASS"
      <-> (text (summarize a) = "PASS" /\ text (summarize b) <> "FAIL")
          \/ (text (summarize a) = "N/A" /\ text (summarize b) = "PASS")).
Proof.
  destruct (summarize_cases (a ++ b)) as [Hna [Hpass [Hfail _]]].
  destruct (summarize_cases a) as [Hna_a [Hpass_a [Hfail_a Hany_a]]].
  destruct (summarize_cases b) as [Hna_b [Hpass_b [Hfail_b Hany_b]]].
  assert (Hnil : (a ++ b)%list = [] <-> a = [] /\ b = []).
  { split; [apply app_eq_nil | intros [-> ->]; reflexivity]. }
  assert (Hex : Exists (fun r => rc r <> 0%Z) (a ++ b)
                <-> Exists (fun r => rc r <> 0%Z) a \/ Exists (fun r => rc r <> 0%Z) b)
    by apply Exists_app.
  assert (Hall : Forall (fun r => rc r = 0%Z) (a ++ b)
                 <-> Forall (fun r => rc r = 0%Z) a /\ Forall (fun r => rc r = 0%Z) b)
    by apply Forall_app.
  split; [|split].
  - rewrite Hfail, Hfail_a, Hfail_b, Hex, Hnil. split.
    + intros [_ [Ha|Hb]].
      * left. split; [|exact Ha]. intros ->. inversion Ha.
      * right. split; [|exact Hb]. intros ->. inversion Hb.
    + intros [[Hne Ha]|[Hne Hb]]; (split; [tauto|]); [now left | now right].
  - rewrite Hna, Hna_a, Hna_b. exact Hnil.
  - rewrite Hpass, Hpass_a, Hfail_b, Hna_a, Hpass_b, Hall, Hnil. split.
    + intros [Hne [Ha Hb]]. destruct a as [|r a'].
      * right. split; [reflexivity|]. split; [|exact Hb]. intros ->. now apply Hne.
      * left. split; [split; [discriminate | exact Ha]|].
        intros [_ Hexb]. apply Exists_exists in Hexb. destruct Hexb as [x [Hx Hnz]].
        rewrite Forall_forall in Hb. now apply Hnz, Hb.
    + intros [[[Hne Ha] Hnofail]|[-> [Hne Hb]]].
      * split; [tauto|]. split; [exact Ha|].
        apply Forall_forall. intros x Hx.
        destruct (Z.eq_dec (rc x) 0) as [Hz|Hnz]; [exact Hz|].
        elim Hnofail. split.
        -- intros ->. elim Hx.
        -- apply Exists_exists. now exists x.
      * split; [tauto|]. split; [constructor | exact Hb].
Qed.

(** X6.  A result with a non-zero return code always shows: it turns the
    summary of its class, enforced or optional, to FAIL, and nothing else
    does. *)
Theorem failing_result_shows_in_a_summary (results : list Result) :
  (exists r, In r results /\ rc r <> 0%Z)
  <-> text (summarize (filter (fun r => enforced r) results)) = "FAIL"
      \/ text (summarize (filter (fun r => negb (enforced r)) results)) = "FAIL".
Proof.
  destruct (summarize_cases (filter (fun r => enforced r) results))
    as [_ [_ [Hfail_e _]]].
  destruct (summarize_cases (filter (fun r => negb (enforced r)) results))
    as [_ [_ [Hfail_o _]]].
  rewrite Hfail_e, Hfail_o. split.
  - intros [r [Hin Hrc]]. destruct (enforced r) eqn:Henf.
    + left. assert (Hr : In r (filter (fun r => enforced r) results))
        by (apply filter_In; now split).
      split; [intros Hnil; rewrite Hnil in Hr; elim Hr|].
      apply Exists_exists. now exists r.
    + right. assert (Hr : In r (filter (fun r => negb (enforced r)) results))
        by (apply filter_In; split; [exact Hin | now rewrite Henf]).
      split; [intros Hnil; rewrite Hnil in Hr; elim Hr|].
      apply Exists_exists. now exists r.
  - intros [[_ Hex]|[_ Hex]]; apply Exists_exists in Hex;
      destruct Hex as [r [Hin Hrc]]; apply filter_In in Hin; exists r; tauto.
Qed.

Lemma flat_map_if {A B : Type} (P : A -> bool) (x : A -> B) (l : list A) :
  flat_map (fun k => if P k then [x k] else []) l = map x (filter P l).
Proof.
  induction l as [|k l IH]; cbn [flat_map filter]; [reflexivity|].
  destruct (P k); cbn [app map]; [now rewrite IH | exact IH].
Qed.

Section Outcomes.
Context {host : Host}.

Lemma or_else_truthy (x : option Value) (d : Value) :
  truthy d = true -> truthy (or_else x d) = true.
Proof.
  intros Hd. unfold or_else. destruct x as [v|]; [|exact Hd].
  destruct (truthy v) eqn:Hv; [exact Hv | exact Hd].
Qed.

Lemma or_else_of_truthy (v d : Value) :
  truthy v = true -> or_else (Some v) d = v.
Proof. intros Hv. unfold or_else. now rewrite Hv. Qed.

(** X1.  The outcomes come one per field whose name starts with [result], in
    the order of the fields, each named by the rest of the field name: in
    the detail view of both files and in the home view. *)
Theorem outcomes_follow_field_order (id : string) (data : Record) :
  map (fun o : Outcome => name o) (Indirect.detailResults id data)
  = map (substring_from 6) (filter (fun key => startsWith key "result") (keys data))
  /\ map (fun o : Outcome => name o) (Direct.detailResults id data)
     = map (substring_from 6) (filter (fun key => startsWith key "result") (keys data))
  /\ map name (homeResults data)
     = map (substring_from 6) (filter (fun key => startsWith key "result") (keys data)).
Proof.
  unfold Indirect.detailResults, Direct.detailResults, homeResults.
  rewrite !flat_map_if, !map_map. repeat split.
Qed.

(** X2.  The home view and the detail view read the same outcomes off a
    Record: the name, return code and enforced flag of every row of the
    detail table are those the home summaries were computed from. *)
Theorem home_and_detail_read_the_same_results (id : string) (data : Record) :
  map result (Indirect.detailResults id data) = homeResults data
  /\ map result (Direct.detailResults id data) = homeResults data.
Proof.
  unfold Indirect.detailResults, Direct.detailResults, homeResults.
  rewrite !flat_map_if, !map_map. split; reflexivity.
Qed.

Lemma resultRow_cells (o : Outcome) :
  truthy (description o) = true -> truthy (runtime o) = true ->
  Occurs ("<td>" ++ escapeHtml (Some (description o)) ++ "</td>") (resultRow o)
  /\ Occurs ("<td>" ++ escapeHtml (Some (runtime o)) ++ "</td>") (resultRow o).
Proof.
  intros Hd Hr. unfold resultRow.
  rewrite (or_else_of_truthy _ _ Hd), (or_else_of_truthy _ _ Hr). split.
  - do 3 apply Occurs_right. apply Occurs_left.
    unfold line. apply Occurs_right, Occurs_left, Occurs_here.
  - do 5 apply Occurs_right. apply Occurs_left.
    unfold line. apply Occurs_right, Occurs_left, Occurs_here.
Qed.

(** X3.  Every outcome of the detail view has a runtime and a description
    that are not empty: the Record's [runtime<Name>] and
    [description<Name>] when they are truthy, "N/A" and "Job: <Name>"
    otherwise.  The row of the table shows exactly these (the second
    fallback in [renderResultsTable] never has to step in). *)
Theorem outcome_defaults (id : string) (data : Record) (o : Outcome) :
  In o (Indirect.detailResults id data) \/ In o (Direct.detailResults id data) ->
  runtime o = or_else (get data ("runtime" ++ name o)) (VStr "N/A")
  /\ description o
     = or_else (get data ("description" ++ name o)) (VStr ("Job: " ++ name o))
  /\ truthy (runtime o) = true
  /\ truthy (description o) = true
  /\ Occurs ("<td>" ++ escapeHtml (Some (description o)) ++ "</td>") (resultRow o)
  /\ Occurs ("<td>" ++ escapeHtml (Some (runtime o)) ++ "</td>") (resultRow o).
Proof.
  intros Hin.
  assert (Hshape : exists prefix key, o = outcome_of prefix data key).
  { destruct Hin as [Hin|Hin].
    - apply Indirect_detailResults_spec in Hin. destruct Hin as [key [_ [_ ->]]]. eauto.
    - apply Direct_detailResults_spec in Hin. destruct Hin as [key [_ [_ ->]]]. eauto. }
  destruct Hshape as [prefix [key ->]].
  assert (Hr : truthy (runtime (outcome_of prefix data key)) = true)
    by (apply or_else_truthy; reflexivity).
  assert (Hd : truthy (description (outcome_of prefix data key)) = true)
    by (apply or_else_truthy; reflexivity).
  split; [reflexivity|]. split; [reflexivity|].
  split; [exact Hr|]. split; [exact Hd|].
  now apply resultRow_cells.
Qed.

End Outcomes.

(** ** Routes *)

Section Routes.
Context {host : Host}.

Lemma showError_wrapped (message : string) (st : App) :
  wrapped_text errorOpen "</div>" (content (showError message st)).
Proof.
  exists (serializeText message). split; [|apply serializeText_no_bracket].
  cbn [showError set_content content error_html escapeHtml str ToString].
  unfold errorOpen. now rewrite !append_assoc.
Qed.

Lemma Direct_showTestDetail_own (st : App) (m : Store) (gitHash : string) (data : Record) :
  metadata st = Some m -> assoc gitHash m = Some data ->
  Direct.showTestDetail gitHash st
  = Some (set_content
            (Direct.detailHtml (or_else (get data "subject") (VStr "Unknown"))
               (Direct.detailResults gitHash data))
            (set_currentView "detail" st)).
Proof.
  intros Hm Hdata. unfold Direct.showTestDetail. cbn [metadata set_currentView].
  rewrite Hm, (member_own _ _ _ Hdata). reflexivity.
Qed.

Lemma Direct_own_key_is_detail (response : Fetched) (st : App) (m : Store)
      (id : string) (data : Record) :
  metadata st = Some m -> hash st = "#review/" ++ id -> assoc id m = Some data ->
  Direct.handleRoute response st
  = Some (set_content
            (Direct.detailHtml (or_else (get data "subject") (VStr "Unknown"))
               (Direct.detailResults id data))
            (set_currentView "detail" st)).
Proof.
  intros Hm Hhash Hdata. unfold Direct.handleRoute.
  rewrite Hhash, startsWith_append, substring_from_append.
  unfold Direct.showReviewByGitHash. rewrite Hm, (member_own _ _ _ Hdata).
  cbn [Member_truthy]. now apply Direct_showTestDetail_own with m.
Qed.

(** X7.  In [src/unnamed/part_000] the fragment [#review/<id>], for a key
    [<id>] of the store, enters the detail view of the Record under that
    key: its subject (or "Unknown") and its outcomes. *)
Theorem git_hash_resolves_to_its_record (response : Fetched) (st : App) (m : Store)
        (id : string) (data : Record) :
  metadata st = Some m -> hash st = "#review/" ++ id -> assoc id m = Some data ->
  Direct.handleRoute response st
  = Some (set_content
            (Direct.detailHtml (or_else (get data "subject") (VStr "Unknown"))
               (Direct.detailResults id data))
            (set_currentView "detail" st)).
Proof. apply Direct_own_key_is_detail. Qed.




(** X10.  In [src/app.js] a Record whose change id is a JSON number is listed
    with the link [#review/<the number>], and that link is dead: the
    comparison with the fragment is strict and a number is no string, so
    unless another home file has the same digits as a string the error
    view comes up. *)
Theorem numeric_change_id_link_is_dead (response : Fetched) (st : App) (m : Store)
        (item : Indirect.Item) (n : Number) :
  metadata st = Some m ->
  In item (Indirect.homeFiles m) ->
  get (Indirect.data item) "change_id" = Some (VNum n) ->
  hash st = "#review/" ++ Number_toString n ->
  (forall p data, In p (keys m) -> endsWith p "_home.html" = true ->
                  assoc p m = Some data ->
                  get data "change_id" <> Some (VStr (Number_toString n))) ->
  Occurs ("<a href=" ++ q ("#review/" ++ serializeText (Number_toString n)) ++ ">Link</a>")
         (Indirect.homeRow item)
  /\ Indirect.handleRoute response st
     = Some (showError ("Review with change ID " ++ Number_toString n ++ " not found") st).
Proof.
  intros Hm Hin Hid Hhash Hothers. split.
  - unfold Indirect.homeRow. rewrite Hid.
    cbn [escapeHtml ToString].
    do 2 apply Occurs_right. apply Occurs_left.
    unfold line. apply Occurs_right, Occurs_left.
    exists "<td>", "</td>". rewrite !append_assoc. reflexivity.
  - apply Indirect_unresolved_is_error; [exact Hhash|].
    rewrite Hm. unfold Indirect.findHomeFile. apply find_none_iff.
    intros p Hp. apply filter_In in Hp. destruct Hp as [Hkey Hend].
    destruct (assoc_in_keys p m Hkey) as [data Hdata].
    rewrite (member_own _ _ _ Hdata). cbn [fields].
    destruct (strict_eq_string (get data "change_id") (Number_toString n)) eqn:Heq;
      [|reflexivity].
    apply strict_eq_string_spec in Heq. now elim (Hothers p data Hkey Hend Hdata).
Qed.

End Routes.

(** ** What routing keeps *)

Section Frames.
Context {host : Host}.

Lemma showStatus_frame (response : Fetched) (st : App) :
  metadata (showStatus response st) = metadata st
  /\ currentView (showStatus response st) = "status"
  /\ hash (showStatus response st) = "#status".
Proof. destruct response; repeat split. Qed.

Lemma Indirect_showTestDetail_frame (homePath : string) (st next : App) :
  Indirect.showTestDetail homePath st = Some next ->
  metadata next = metadata st /\ hash next = hash st.
Proof.
  unfold Indirect.showTestDetail. cbn [metadata set_currentView].
  destruct (metadata st) as [m|] eqn:Hm; [|discriminate].
  destruct (negb (Member_truthy (member m homePath))); intros [= <-]; cbn;
    now rewrite Hm.
Qed.

Lemma Direct_showTestDetail_frame (gitHash : string) (st next : App) :
  Direct.showTestDetail gitHash st = Some next ->
  metadata next = metadata st /\ hash next = hash st.
Proof.
  unfold Direct.showTestDetail. cbn [metadata set_currentView].
  destruct (metadata st) as [m|] eqn:Hm; [|discriminate].
  destruct (negb (Member_truthy (member m gitHash))); intros [= <-]; cbn;
    now rewrite Hm.
Qed.

Lemma Indirect_handleRoute_metadata (response : Fetched) (st next : App) :
  Indirect.handleRoute response st = Some next -> metadata next = metadata st.
Proof.
  unfold Indirect.handleRoute.
  destruct (startsWith (hash st) "#review/").
  - unfold Indirect.showReviewByChangeId.
    destruct (Indirect.findHomeFile _ _) as [homeFile|]; [|now intros [= <-]].
    destruct (negb (String.eqb homeFile "")); [|now intros [= <-]].
    intros Hdetail. now apply Indirect_showTestDetail_frame in Hdetail.
  - destruct (String.eqb (hash st) "#status"); intros [= <-].
    + apply showStatus_frame.
    + apply Indirect_showHome_view.
Qed.

Lemma Direct_handleRoute_metadata (response : Fetched) (st next : App) :
  Direct.handleRoute response st = Some next -> metadata next = metadata st.
Proof.
  unfold Direct.handleRoute.
  destruct (startsWith (hash st) "#review/").
  - unfold Direct.showReviewByGitHash.
    destruct (metadata st) as [m|] eqn:Hm; [|now intros [= <-]].
    destruct (Member_truthy (member m _)); [|now intros [= <-]].
    intros Hdetail. apply Direct_showTestDetail_frame in Hdetail.
    destruct Hdetail as [Hmeta _]. congruence.
  - destruct (String.eqb (hash st) "#status"); intros [= <-].
    + apply showStatus_frame.
    + apply Direct_showHome_view.
Qed.

(** X11.  Whatever the fragment, and whether or not the metadata is loaded,
    [handleRoute] returns without throwing and leaves the metadata as it
    found it, in both files. *)
Theorem routing_returns_and_keeps_the_metadata (response : Fetched) (st : App) :
  (exists next, Indirect.handleRoute response st = Some next
                /\ metadata next = metadata st)
  /\ (exists next, Direct.handleRoute response st = Some next
                   /\ metadata next = metadata st).
Proof.
  split.
  - destruct (Indirect_handleRoute_total response st) as [next Hnext].
    exists next. split; [exact Hnext|]. now apply Indirect_handleRoute_metadata in Hnext.
  - destruct (Direct_handleRoute_total response st) as [next Hnext].
    exists next. split; [exact Hnext|]. now apply Direct_handleRoute_metadata in Hnext.
Qed.

(** X12.  [showHome] empties the fragment; routing the page it leaves shows the
    same page again, so the fragment change that [showHome] causes settles
    at once, in both files. *)
Theorem home_settles (response : Fetched) (st : App) :
  (hash (Indirect.showHome st) = ""
   /\ Indirect.handleRoute response (Indirect.showHome st) = Some (Indirect.showHome st))
  /\ (hash (Direct.showHome st) = ""
      /\ Direct.handleRoute response (Direct.showHome st) = Some (Direct.showHome st)).
Proof.
  split; split.
  - apply Indirect_showHome_view.
  - apply Indirect_showHome_again.
  - apply Direct_showHome_view.
  - apply Direct_showHome_again.
Qed.

Lemma showStatus_content (response : Fetched) (st : App) :
  wrapped_text "<pre>" "</pre>" (content (showStatus response st))
  \/ wrapped_text errorOpen "</div>" (content (showStatus response st)).
Proof.
  destruct response as [statusText| |message].
  - left. exists (serializeText statusText).
    split; [reflexivity | apply serializeText_no_bracket].
  - right. apply showError_wrapped.
  - right. apply showError_wrapped.
Qed.

(** X13.  The fragment [#status] shows the status page in both files: the view
    is "status", the page is either the status text in a [pre] or an error
    message in the error [div], in both cases with every angle bracket of
    the text escaped, and routing the page again with the same answer of
    the server changes nothing. *)
Theorem status_route (response : Fetched) (st : App) :
  hash st = "#status" ->
  Indirect.handleRoute response st = Some (showStatus response st)
  /\ Direct.handleRoute response st = Some (showStatus response st)
  /\ currentView (showStatus response st) = "status"
  /\ (wrapped_text "<pre>" "</pre>" (content (showStatus response st))
      \/ wrapped_text errorOpen "</div>" (content (showStatus response st)))
  /\ Indirect.handleRoute response (showStatus response st)
     = Some (showStatus response st)
  /\ Direct.handleRoute response (showStatus response st)
     = Some (showStatus response st).
Proof.
  intros Hhash.
  split; [unfold Indirect.handleRoute; now rewrite Hhash|].
  split; [unfold Direct.handleRoute; now rewrite Hhash|].
  split; [apply showStatus_frame|].
  split; [apply showStatus_content|].
  split; destruct response; reflexivity.
Qed.

(** X14.  An identifier that resolves to nothing is shown back escaped: the
    page becomes the error [div] around a text without angle brackets,
    while the view name, the fragment and the metadata stay as they were.
    In [src/app.js] this is so whenever no home file matches; in
    [src/unnamed/part_000] whenever the member read gives [undefined]. *)
Theorem unresolved_id_is_shown_escaped (response : Fetched) (st : App) (id : string) :
  hash st = "#review/" ++ id ->
  (Indirect.findHomeFile (match metadata st with Some m => m | None => [] end) id = None ->
   exists next,
     Indirect.handleRoute response st = Some next
     /\ wrapped_text errorOpen "</div>" (content next)
     /\ currentView next = currentView st /\ hash next = hash st
     /\ metadata next = metadata st)
  /\ (match metadata st with Some m => member m id = Undefined | None => True end ->
      exists next,
        Direct.handleRoute response st = Some next
        /\ wrapped_text errorOpen "</div>" (content next)
        /\ currentView next = currentView st /\ hash next = hash st
        /\ metadata next = metadata st).
Proof.
  intros Hhash. split; intros Hnone.
  - destruct (Indirect_unresolved_is_error response st id Hhash Hnone) as [Hroute _].
    eexists. split; [exact Hroute|]. split; [apply showError_wrapped|]. now repeat split.
  - destruct (Direct_undefined_is_error response st id Hhash Hnone) as [Hroute _].
    eexists. split; [exact Hroute|]. split; [apply showError_wrapped|]. now repeat split.
Qed.

(** X15.  When the metadata document is [null], every fragment other than
    [#status] ends in the error view, in both files, and none throws:
    [review/<id>] reports the identifier as not found, everything else
    reports that no metadata is available. *)
Theorem null_metadata_shows_errors (response : Fetched) (st : App) :
  metadata st = None ->
  String.eqb (hash st) "#status" = false ->
  (exists message, option_map content (Indirect.handleRoute response st)
                   = Some (error_html message))
  /\ (exists message, option_map content (Direct.handleRoute response st)
                      = Some (error_html message)).
Proof.
  intros Hm Hstatus. unfold Indirect.handleRoute, Direct.handleRoute.
  destruct (startsWith (hash st) "#review/").
  - unfold Indirect.showReviewByChangeId, Direct.showReviewByGitHash.
    rewrite Hm. split.
    + exists ("Review with change ID "
              ++ substring_from (String.length "#review/") (hash st) ++ " not found").
      reflexivity.
    + exists ("Review with git hash "
              ++ substring_from (String.length "#review/") (hash st) ++ " not found").
      reflexivity.
  - rewrite Hstatus. unfold Indirect.showHome, Direct.showHome.
    cbn [metadata set_hash set_currentView]. rewrite Hm.
    split; exists "No metadata available"; reflexivity.
Qed.

End Frames.

(** ** Ties and order already there *)

Lemma leb_not_positive (x y : Double) :
  Double_leb y x = true -> positive (Double_sub y x) = false.
Proof.
  destruct x as [| |a|], y as [| |b|]; cbn; try congruence.
  intros Hle. apply Qle_bool_iff in Hle. apply negb_false_iff.
  apply Qle_bool_iff. lra.
Qed.

Lemma sort_of_sorted {A : Type} (time : A -> Double) (l : list A) :
  StronglySorted (not_older time) l -> sort (by_time time) l = l.
Proof.
  unfold sort. induction 1 as [|x l Hl IH Hx]; cbn [fold_right]; [reflexivity|].
  rewrite IH. destruct l as [|y rest]; cbn [insert]; [reflexivity|].
  inversion Hx as [|? ? Hxy _]; subst.
  unfold by_time. now rewrite (leb_not_positive _ _ Hxy).
Qed.

Section Ties.
Context {host : Host}.

(** X17.  A store whose complete Records already stand newest first, ties
    included, is listed in the order of the store, in both files: Records
    with equal time stamps are never swapped. *)
Theorem ordered_store_is_listed_in_store_order (m : Store) :
  (StronglySorted (not_older Indirect_time) (Indirect_candidates m) ->
   Indirect.homeFiles m = Indirect_candidates m)
  /\ (StronglySorted (not_older Direct_time) (Direct_candidates m) ->
      Direct.testRuns m = Direct_candidates m).
Proof.
  split; intros Hsorted.
  - change (Indirect.homeFiles m)
      with (sort (by_time (fun item : Indirect.Item =>
                             parseFloat_or_0 (get (Indirect.data item) "time_stamp")))
                 (Indirect_candidates m)).
    apply sort_of_sorted.
    apply StronglySorted_in_impl with (R := not_older Indirect_time); [|exact Hsorted].
    intros a b Ha Hb. unfold not_older.
    apply filter_In in Ha, Hb.
    now rewrite !Indirect_time_complete by tauto.
  - change (Direct.testRuns m)
      with (sort (by_time (fun item : Direct.Item =>
                             parseFloat_or_0 (get (Direct.data item) "time_stamp")))
                 (Direct_candidates m)).
    apply sort_of_sorted.
    apply StronglySorted_in_impl with (R := not_older Direct_time); [|exact Hsorted].
    intros a b Ha Hb. unfold not_older.
    apply filter_In in Ha, Hb.
    now rewrite !Direct_time_complete by tauto.
Qed.

End Ties.

(** ** More on the filters *)

Lemma filter_twice {A : Type} (f : A -> bool) (l : list A) :
  filter f (filter f l) = filter f l.
Proof.
  induction l as [|x l IH]; cbn; [reflexivity|].
  destruct (f x) eqn:Hx; cbn; [now rewrite Hx, IH | exact IH].
Qed.

Lemma filter_absent_token (token : string) (l : list string) :
  has_token token l = false ->
  filter (fun t => negb (String.eqb token t)) l = l.
Proof.
  unfold has_token. induction l as [|t l IH]; cbn; [reflexivity|].
  intros Hnone. apply orb_false_iff in Hnone. destruct Hnone as [Ht Hl].
  rewrite Ht. cbn. now rewrite IH.
Qed.

Lemma marked_twice (matches : bool) (row : Tr) :
  marked matches (marked matches row) = marked matches row.
Proof.
  unfold marked. destruct matches.
  - unfold classList_remove. cbn [cells classList]. now rewrite filter_twice.
  - unfold classList_add at 1. cbn [cells classList classList_add].
    now rewrite has_token_add.
Qed.

Lemma marked_cells (matches : bool) (row : Tr) : cells (marked matches row) = cells row.
Proof. now destruct matches. Qed.

Lemma shown_after_marked (matches : bool) (row : Tr) :
  has_token "filtered" (classList row) = false ->
  classList_remove "filtered" (marked matches row) = row.
Proof.
  intros Hfresh. destruct row as [cs tokens]. cbn [classList] in Hfresh.
  unfold marked, classList_remove, classList_add. destruct matches; cbn [cells classList].
  - now rewrite filter_twice, filter_absent_token.
  - rewrite Hfresh, filter_app, filter_absent_token by exact Hfresh.
    cbn. now rewrite app_nil_r.
Qed.

Lemma update_first_twice {A : Type} (p : A -> bool) (f : A -> A) (l : list A) :
  (forall x, p (f x) = p x) -> (forall x, f (f x) = f x) ->
  update_first p f (update_first p f l) = update_first p f l.
Proof.
  intros Hp Hf. induction l as [|x l IH]; cbn; [reflexivity|].
  destruct (p x) eqn:Hx; cbn.
  - now rewrite Hp, Hx, Hf.
  - now rewrite Hx, IH.
Qed.

Lemma with_rows_twice (f : Tr -> Tr) (table : Table) :
  (forall row, f (f row) = f row) ->
  with_rows f (with_rows f table) = with_rows f table.
Proof.
  intros Hf. unfold with_rows. cbn [className rows]. f_equal.
  rewrite map_map. apply map_ext. exact Hf.
Qed.

Lemma getSelected_unchecked (name : string) (doc : Document) :
  (forall r, In r (radios doc) -> group r = name -> checked r = false) ->
  getSelected name doc = "All".
Proof.
  intros Hnone. unfold getSelected.
  replace (find checked (filter (fun r => String.eqb (group r) name) (radios doc)))
    with (@None Radio); [reflexivity|].
  symmetry. apply find_none_iff. intros r Hr. apply filter_In in Hr.
  destruct Hr as [Hin Hgroup]. apply String.eqb_eq in Hgroup. now apply Hnone.
Qed.

Section MoreFilters.
Context {host : Host}.

(** X18.  Applying a filter a second time changes nothing more, for both
    filters. *)
Theorem filters_are_idempotent (st : App) (doc : Document) :
  updateFilter st (snd (updateFilter st doc)) = updateFilter st doc
  /\ Direct.updateHomeFilter st (snd (Direct.updateHomeFilter st doc))
     = Direct.updateHomeFilter st doc.
Proof.
  split.
  - unfold updateFilter. cbn [snd radios tables]. f_equal. f_equal.
    change (getSelectedFilter {| radios := radios doc; tables := _ |})
      with (getSelectedFilter doc).
    apply update_first_twice.
    + reflexivity.
    + intros table. apply with_rows_twice. intros row.
      change (marked (String.eqb (getSelectedFilter doc) "All"
                      || String.eqb (getRowStatus (marked (String.eqb (getSelectedFilter doc) "All" || String.eqb (getRowStatus row) (getSelectedFilter doc)) row)) (getSelectedFilter doc))
                (marked (String.eqb (getSelectedFilter doc) "All"
                         || String.eqb (getRowStatus row) (getSelectedFilter doc)) row)
              = marked (String.eqb (getSelectedFilter doc) "All"
                        || String.eqb (getRowStatus row) (getSelectedFilter doc)) row).
      unfold getRowStatus, cellText at 1. rewrite marked_cells.
      apply marked_twice.
  - unfold Direct.updateHomeFilter. cbn [snd radios tables]. f_equal. f_equal.
    change (getSelectedEnforcedFilter {| radios := radios doc; tables := _ |})
      with (getSelectedEnforcedFilter doc).
    change (getSelectedOptionalFilter {| radios := radios doc; tables := _ |})
      with (getSelectedOptionalFilter doc).
    apply update_first_twice.
    + reflexivity.
    + intros table. apply with_rows_twice. intros row.
      set (decide := fun r : Tr =>
             (String.eqb (getSelectedEnforcedFilter doc) "All"
              || String.eqb (getRowEnforcedStatus r) (getSelectedEnforcedFilter doc))
             && (String.eqb (getSelectedOptionalFilter doc) "All"
                 || String.eqb (getRowOptionalStatus r) (getSelectedOptionalFilter doc))).
      change (marked (decide (marked (decide row) row)) (marked (decide row) row)
              = marked (decide row) row).
      replace (decide (marked (decide row) row)) with (decide row);
        [apply marked_twice|].
      unfold decide, getRowEnforcedStatus, getRowOptionalStatus, cellText.
      now rewrite marked_cells.
Qed.

End MoreFilters.

Section FilterEdges.
Context {host : Host}.

Lemma with_rows_shown_after_marked (decide : Tr -> bool) (table : Table) :
  (forall row, In row (rows table) -> has_token "filtered" (classList row) = false) ->
  with_rows (classList_remove "filtered")
    (with_rows (fun row => marked (decide row) row) table) = table.
Proof.
  intros Hfresh. destruct table as [classes rs]. unfold with_rows.
  cbn [className rows] in *. f_equal. rewrite map_map.
  rewrite <- (map_id rs) at 2. apply map_ext_in.
  intros row Hrow. apply shown_after_marked. now apply Hfresh.
Qed.

(** X19.  With no radio of the status filter checked, [updateFilter] acts as
    for "All": every row of the results table loses the [filtered] token
    and nothing is hidden. *)
Theorem unchecked_filter_shows_every_row
        (st : App) (doc : Document) (before after : list Table) (table : Table) :
  (forall r, In r (radios doc) -> group r = "statusfilter" -> checked r = false) ->
  tables doc = (before ++ table :: after)%list ->
  has_token "test-results-table" (className table) = true ->
  (forall t, In t before -> has_token "test-results-table" (className t) = false) ->
  updateFilter st doc
  = (st, {| radios := radios doc;
            tables := (before ++ with_rows (classList_remove "filtered") table
                              :: after)%list |})
  /\ forall row, In row (rows (with_rows (classList_remove "filtered") table)) ->
                 has_token "filtered" (classList row) = false.
Proof.
  intros Hnone Htables Hclass Hbefore. split.
  - unfold updateFilter, getSelectedFilter.
    rewrite (getSelected_unchecked _ _ Hnone), Htables.
    now rewrite update_first_at by assumption.
  - intros row Hrow. cbn [with_rows rows] in Hrow. apply in_map_iff in Hrow.
    destruct Hrow as [row0 [<- _]]. apply has_token_remove.
Qed.

(** X20.  Filtering a freshly rendered results table and then setting the
    filter back to "All" gives back the tables exactly as they were. *)
Theorem filter_then_all_restores_the_table
        (st : App) (doc : Document) (radios' : list Radio)
        (before after : list Table) (table : Table) :
  tables doc = (before ++ table :: after)%list ->
  has_token "test-results-table" (className table) = true ->
  (forall t, In t before -> has_token "test-results-table" (className t) = false) ->
  (forall row, In row (rows table) -> has_token "filtered" (classList row) = false) ->
  getSelected "statusfilter" {| radios := radios'; tables := [] |} = "All" ->
  tables (snd (updateFilter st
                 {| radios := radios';
                    tables := tables (snd (updateFilter st doc)) |}))
  = tables doc.
Proof.
  intros Htables Hclass Hbefore Hfresh Hall.
  unfold updateFilter at 2. cbn [snd tables]. rewrite Htables.
  rewrite update_first_at by assumption.
  unfold updateFilter. cbn [snd tables radios].
  change (getSelectedFilter {| radios := radios'; tables := _ |})
    with (getSelected "statusfilter" {| radios := radios'; tables := [] |}).
  rewrite Hall. rewrite update_first_at by assumption.
  f_equal. f_equal.
  apply (with_rows_shown_after_marked
           (fun row => String.eqb (getSelectedFilter doc) "All"
                       || String.eqb (getRowStatus row) (getSelectedFilter doc))).
  exact Hfresh.
Qed.

(** X21.  On a page without a table of class [test-results-table],
    [updateFilter] changes nothing; on a page without any table,
    [updateHomeFilter] changes nothing. *)
Theorem filters_without_their_table (st : App) (doc : Document) :
  ((forall t, In t (tables doc) ->
              has_token "test-results-table" (className t) = false) ->
   updateFilter st doc = (st, doc))
  /\ (tables doc = [] -> Direct.updateHomeFilter st doc = (st, doc)).
Proof.
  split.
  - intros Hnone. unfold updateFilter. rewrite update_first_none by assumption.
    now destruct doc.
  - intros Hnone. unfold Direct.updateHomeFilter. rewrite Hnone. cbn.
    destruct doc as [rs ts]. cbn in Hnone. now subst ts.
Qed.

End FilterEdges.

(** ** More on escaping *)

Lemma serializeText_length (s : string) :
  String.length s <= String.length (serializeText s)
  /\ (all_plain s = false -> String.length s < String.length (serializeText s)).
Proof.
  induction s as [|c s [IHle IHlt]]; [split; [reflexivity | discriminate]|].
  cbn [serializeText all_plain]. unfold plain.
  destruct (Ascii.eqb c "&"%char); [cbn; split; intros; lia|].
  destruct (Ascii.eqb c "160"%char); [cbn; split; intros; lia|].
  destruct (Ascii.eqb c "<"%char); [cbn; split; intros; lia|].
  destruct (Ascii.eqb c ">"%char); [cbn; split; intros; lia|].
  cbn. split; [lia|]. intros Hs. apply IHlt in Hs. lia.
Qed.

Lemma serializeText_plain (s : string) : all_plain s = true -> serializeText s = s.
Proof.
  induction s as [|c s IH]; [reflexivity|].
  cbn [serializeText all_plain]. unfold plain. intros Hs.
  apply andb_true_iff in Hs. destruct Hs as [Hc Hs].
  apply negb_true_iff in Hc. repeat (apply orb_false_iff in Hc; destruct Hc as [Hc ?]).
  repeat match goal with H : Ascii.eqb _ _ = false |- _ => rewrite H; clear H end.
  cbn. now rewrite IH.
Qed.

Lemma serializeText_injective (s1 s2 : string) :
  serializeText s1 = serializeText s2 -> s1 = s2.
Proof.
  revert s2. induction s1 as [|c1 s1 IH]; intros [|c2 s2]; cbn [serializeText].
  - reflexivity.
  - destruct (Ascii.eqb c2 "&"%char); [discriminate|].
    destruct (Ascii.eqb c2 "160"%char); [discriminate|].
    destruct (Ascii.eqb c2 "<"%char); [discriminate|].
    destruct (Ascii.eqb c2 ">"%char); discriminate.
  - destruct (Ascii.eqb c1 "&"%char); [discriminate|].
    destruct (Ascii.eqb c1 "160"%char); [discriminate|].
    destruct (Ascii.eqb c1 "<"%char); [discriminate|].
    destruct (Ascii.eqb c1 ">"%char); discriminate.
  - destruct (Ascii.eqb c1 "&"%char) eqn:H1a;
      [|destruct (Ascii.eqb c1 "160"%char) eqn:H1n;
        [|destruct (Ascii.eqb c1 "<"%char) eqn:H1l;
          [|destruct (Ascii.eqb c1 ">"%char) eqn:H1g]]];
    (destruct (Ascii.eqb c2 "&"%char) eqn:H2a;
      [|destruct (Ascii.eqb c2 "160"%char) eqn:H2n;
        [|destruct (Ascii.eqb c2 "<"%char) eqn:H2l;
          [|destruct (Ascii.eqb c2 ">"%char) eqn:H2g]]]);
    cbn [append]; intros Heq; try discriminate Heq;
    repeat match goal with
           | H : Ascii.eqb _ _ = true |- _ => apply Ascii.eqb_eq in H; subst
           end;
    try (injection Heq as Heq; f_equal; now apply IH);
    try (injection Heq as Hc Heq; subst;
         repeat match goal with
                | H : Ascii.eqb ?c ?c = false |- _ =>
                    rewrite Ascii.eqb_refl in H; discriminate H
                end;
         f_equal; now apply IH).
Qed.

Section MoreEscaping.
Context {host : Host}.

(** X22.  Whatever [escapeHtml] is given, a string, a number, a boolean or
    [undefined], what it returns holds no angle bracket. *)
Theorem escapeHtml_never_yields_a_bracket (text : option Value) :
  includes (escapeHtml text) "<" = false /\ includes (escapeHtml text) ">" = false.
Proof.
  destruct text as [v|]; [apply serializeText_no_bracket | split; reflexivity].
Qed.

(** X23.  [escapeHtml] gives a string back unchanged exactly when the string
    holds none of the ampersand, the two angle brackets and the no-break
    space. *)
Theorem escapeHtml_fixes_exactly_plain_text (s : string) :
  escapeHtml (str s) = s <-> all_plain s = true.
Proof.
  cbn [escapeHtml str ToString]. split.
  - intros Hfix. destruct (all_plain s) eqn:Hplain; [reflexivity|].
    apply serializeText_length in Hplain. rewrite Hfix in Hplain. lia.
  - apply serializeText_plain.
Qed.

(** X24.  [escapeHtml] never gives the same markup for two different strings. *)
Theorem escapeHtml_tells_strings_apart (s1 s2 : string) :
  escapeHtml (str s1) = escapeHtml (str s2) <-> s1 = s2.
Proof.
  split; [apply serializeText_injective | now intros ->].
Qed.

End MoreEscaping.

(** ** The name part of a log path *)

Lemma mapString_ext (f g : ascii -> ascii) (s : string) :
  (forall c, f c = g c) -> mapString f s = mapString g s.
Proof. intros Hfg. induction s as [|c s IH]; cbn; [reflexivity | now rewrite Hfg, IH]. Qed.

Lemma mapString_mapString (f g : ascii -> ascii) (s : string) :
  mapString f (mapString g s) = mapString (fun c => f (g c)) s.
Proof. induction s as [|c s IH]; cbn; [reflexivity | now rewrite IH]. Qed.

(** One code unit through [replace(/ /g, "_")] and [toLowerCase()]. *)
Lemma normal_char (c : ascii) :
  let n := lowerChar (if Ascii.eqb c " "%char then "_"%char else c) in
  n <> " "%char /\ isCapital n = false
  /\ lowerChar (if Ascii.eqb n " "%char then "_"%char else n) = n.
Proof.
  destruct c as [[] [] [] [] [] [] [] []]; vm_compute;
    (split; [discriminate | split; reflexivity]).
Qed.

(** X25.  The part of a log path that comes from the test name holds no space
    and no capital letter A-Z, and normalising it once more changes
    nothing: a name and its normalised form give the same log file. *)
Theorem normalised_name_is_plain (name : string) :
  (forall i c, String.get i (toLowerCase (replaceSpaces name)) = Some c ->
               c <> " "%char /\ isCapital c = false)
  /\ toLowerCase (replaceSpaces (toLowerCase (replaceSpaces name)))
     = toLowerCase (replaceSpaces name).
Proof.
  unfold toLowerCase, replaceSpaces. split.
  - intros i c. rewrite !mapString_get.
    destruct (String.get i name) as [c0|]; [|discriminate].
    cbn [option_map]. intros [= <-].
    destruct (normal_char c0) as [Hspace [Hcapital _]]. now split.
  - rewrite !mapString_mapString. apply mapString_ext. intros c.
    apply (normal_char c).
Qed.

(** ** Start-up *)

Section StartupProperties.
Context {host : Host}.

(** X26.  When the metadata cannot be loaded (the response is not ok, the
    network fails or the body is not JSON), [init] shows the error view
    with the cause after "Failed to initialize application: Could not load
    metadata: ", routes nothing, adds no listener and leaves the state,
    and in [src/unnamed/part_000] the version line, untouched. *)
Theorem init_without_metadata
        (typeError cause : string) (metadataResponse : FetchedJson (option Store))
        (versionResponse : FetchedJson (option Record)) (statusResponse : Fetched)
        (st : App) (el : option string) :
  (metadataResponse = JsonNotOk /\ cause = "Failed to load metadata_store.json")
  \/ metadataResponse = JsonThrew cause ->
  let failed :=
    {| app := showError ("Failed to initialize application: "
                         ++ "Could not load metadata: " ++ cause) st;
       listening := false |} in
  Indirect_init typeError metadataResponse statusResponse st = failed
  /\ Direct_init typeError metadataResponse versionResponse statusResponse st el
     = (failed, el)
  /\ metadata (app failed) = metadata st
  /\ currentView (app failed) = currentView st
  /\ hash (app failed) = hash st.
Proof.
  intros [[-> ->]| ->]; repeat split.
Qed.

(** X27.  When the metadata document arrives, [init] stores it, routes the
    current fragment and adds the listener; the page is the one
    [handleRoute] gives, never an initialisation error, and the stored
    metadata is the document. *)
Theorem init_with_metadata
        (typeError : string) (m : option Store)
        (versionResponse : FetchedJson (option Record)) (statusResponse : Fetched)
        (st : App) (el : option string) :
  (exists routed,
      Indirect.handleRoute statusResponse (set_metadata m st) = Some routed
      /\ Indirect_init typeError (JsonBody m) statusResponse st
         = {| app := routed; listening := true |}
      /\ metadata routed = m)
  /\ (exists routed,
        Direct.handleRoute statusResponse (set_metadata m st) = Some routed
        /\ Direct_init typeError (JsonBody m) versionResponse statusResponse st el
           = ({| app := routed; listening := true |}, loadVersion versionResponse el)
        /\ metadata routed = m).
Proof.
  split.
  - destruct (Indirect_handleRoute_total statusResponse (set_metadata m st))
      as [routed Hrouted].
    exists routed. split; [exact Hrouted|]. split.
    + unfold Indirect_init. cbn [loadMetadata]. now rewrite Hrouted.
    + now apply Indirect_handleRoute_metadata in Hrouted.
  - destruct (Direct_handleRoute_total statusResponse (set_metadata m st))
      as [routed Hrouted].
    exists routed. split; [exact Hrouted|]. split.
    + unfold Direct_init. cbn [loadMetadata]. now rewrite Hrouted.
    + now apply Direct_handleRoute_metadata in Hrouted.
Qed.

(** X28.  [loadVersion] writes the version line only when there is a
    [#version-info] element and the fetched document has a truthy [tag]
    and a truthy [commit]; the line is then "<tag> (<commit>)".  A response
    that is not ok, an exception, a [null] document or a missing field
    leave the element as it was. *)
Theorem version_line_needs_tag_and_commit
        (response : FetchedJson (option Record)) (el : option string) :
  loadVersion response el <> el ->
  exists version old,
    response = JsonBody (Some version)
    /\ el = Some old
    /\ truthy_opt (get version "tag") = true
    /\ truthy_opt (get version "commit") = true
    /\ loadVersion response el
       = Some (interpolate (get version "tag") ++ " ("
               ++ interpolate (get version "commit") ++ ")").
Proof.
  intros Hchanged. destruct response as [[version|]| |]; cbn in *;
    try (now elim Hchanged).
  - destruct el as [old|]; [|now elim Hchanged].
    destruct (truthy_opt (get version "tag")) eqn:Htag; [|now elim Hchanged].
    destruct (truthy_opt (get version "commit")) eqn:Hcommit; [|now elim Hchanged].
    exists version, old. repeat split; assumption.
  - destruct el; now elim Hchanged.
Qed.

End StartupProperties.

(** ** The log panel *)

(** X29.  Two logs asked for one after the other on the same panel, the second
    answered first: the panel ends up with the log that was asked for
    first, exactly as if the second had never been asked for.  Whichever
    answer arrives last is the one shown. *)
Theorem last_answer_fills_the_log_panel
        (panel : LogPanel) (first second : Fetched)
        (firstPath secondPath firstName : string) :
  option_map (showLog_settle first firstPath)
    (option_map (showLog_settle second secondPath)
       (showLog_start (showLog_start (Some panel))))
  = showLog first firstPath firstName (Some panel)
  /\ exists shown,
       option_map logContent (showLog first firstPath firstName (Some panel))
       = Some (Some shown)
       /\ (forall logText, first = Body logText -> shown = logText)
       /\ ((forall logText, first <> Body logText) ->
           Occurs ("Path: " ++ firstPath) shown).
Proof.
  split.
  - unfold showLog. cbn. now rewrite filter_twice.
  - destruct first as [t| |message].
    + exists t. split; [reflexivity|]. split; [now intros logText [= ->]|].
      intros Hfailed. now elim (Hfailed t).
    + exists ("Error loading log: " ++ "Failed to load log file" ++ nl
              ++ "Path: " ++ firstPath).
      split; [reflexivity|]. split; [discriminate|]. intros _.
      do 3 apply Occurs_right. apply Occurs_here.
    + exists ("Error loading log: " ++ message ++ nl ++ "Path: " ++ firstPath).
      split; [reflexivity|]. split; [discriminate|]. intros _.
      do 3 apply Occurs_right. apply Occurs_here.
Qed.

(** ** The further properties at the scenarios *)

Section MoreScenarios.
#[local] Existing Instance integerHost.

Lemma summarize_ignores_order_at_swap :
  summarize [ {| name := "a"; rc := 0; enforced := true |};
              {| name := "b"; rc := 1; enforced := true |} ]
  = summarize [ {| name := "b"; rc := 1; enforced := true |};
                {| name := "a"; rc := 0; enforced := true |} ].
Proof. apply summarize_ignores_order. apply perm_swap. Defined.

Lemma outcome_defaults_at_200 :
  runtime unit_tests_outcome = VStr "N/A"
  /\ description unit_tests_outcome = VStr "Job: Unit Tests"
  /\ truthy (runtime unit_tests_outcome) = true
  /\ truthy (description unit_tests_outcome) = true.
Proof.
  destruct (outcome_defaults home_200 record_200 unit_tests_outcome)
    as [Hr [Hd [Htr [Htd _]]]].
  - left. vm_compute. left. reflexivity.
  - repeat split; assumption.
Defined.

Lemma git_hash_resolves_at_abc123 :
  Direct.handleRoute NotOk (app_at direct_store "#review/abc123")
  = Some (set_content
            (Direct.detailHtml (VStr "Fix bug")
               (Direct.detailResults "abc123" build_record))
            (set_currentView "detail" (app_at direct_store "#review/abc123"))).
Proof.
  apply (git_hash_resolves_to_its_record NotOk _ direct_store "abc123" build_record);
    reflexivity.
Defined.



Lemma numeric_change_id_link_is_dead_at_300 :
  Indirect.handleRoute NotOk (app_at numeric_change_id "#review/300")
  = Some (showError "Review with change ID 300 not found"
            (app_at numeric_change_id "#review/300")).
Proof.
  apply (numeric_change_id_link_is_dead NotOk
           (app_at numeric_change_id "#review/300")
           numeric_change_id numeric_item 300%Z).
  - reflexivity.
  - vm_compute. left. reflexivity.
  - reflexivity.
  - reflexivity.
  - intros p data [<-|[]] _ [= <-]. discriminate.
Defined.

Lemma status_route_at_status :
  Indirect.handleRoute (Body "all <b>green</b>") (app_at indirect_store "#status")
  = Some (showStatus (Body "all <b>green</b>") (app_at indirect_store "#status"))
  /\ content (showStatus (Body "all <b>green</b>") (app_at indirect_store "#status"))
     = "<pre>all &lt;b&gt;green&lt;/b&gt;</pre>".
Proof.
  split.
  - apply (status_route (Body "all <b>green</b>") (app_at indirect_store "#status")).
    reflexivity.
  - reflexivity.
Defined.

Lemma unresolved_id_is_shown_escaped_at_img :
  exists next,
    Indirect.handleRoute NotOk (app_at indirect_store "#review/<img src=x>") = Some next
    /\ wrapped_text errorOpen "</div>" (content next)
    /\ currentView next = "home"
    /\ hash next = "#review/<img src=x>"
    /\ metadata next = Some indirect_store.
Proof.
  apply (proj1 (unresolved_id_is_shown_escaped NotOk
                  (app_at indirect_store "#review/<img src=x>") "<img src=x>"
                  eq_refl)).
  reflexivity.
Defined.

Lemma null_metadata_shows_errors_at_home :
  (exists message, option_map content (Indirect.handleRoute NotOk (null_app ""))
                   = Some (error_html message))
  /\ (exists message, option_map content (Direct.handleRoute NotOk (null_app ""))
                      = Some (error_html message)).
Proof.
  apply (null_metadata_shows_errors NotOk (null_app "")); reflexivity.
Defined.

Lemma tied_runs_keep_store_order :
  Indirect.homeFiles tied_runs = Indirect_candidates tied_runs
  /\ map Indirect.path (Indirect_candidates tied_runs) = [ "1_home.html"; "2_home.html" ].
Proof.
  split; [|vm_compute; reflexivity].
  apply (proj1 (ordered_store_is_listed_in_store_order tied_runs)).
  assert (Hrows : Indirect_candidates tied_runs
                  = [ {| Indirect.path := "1_home.html";
                         Indirect.data := record_at "1700000000" |};
                      {| Indirect.path := "2_home.html";
                         Indirect.data := record_at "1700000000" |} ])
    by (vm_compute; reflexivity).
  rewrite Hrows.
  apply SSorted_cons.
  - apply SSorted_cons; [apply SSorted_nil | apply Forall_nil].
  - apply Forall_cons; [vm_compute; reflexivity | apply Forall_nil].
Defined.

Lemma unchecked_filter_shows_every_row_at_detail :
  updateFilter (app_at direct_store "") unchecked_document
  = (app_at direct_store "",
     {| radios := radios unchecked_document;
        tables := [ with_rows (classList_remove "filtered") detail_table ] |}).
Proof.
  apply (unchecked_filter_shows_every_row (app_at direct_store "")
           unchecked_document [] [] detail_table).
  - intros r [<-|[<-|[]]] _; reflexivity.
  - reflexivity.
  - reflexivity.
  - intros t [].
Defined.

Lemma filter_then_all_restores_the_detail_table :
  tables (snd (updateFilter (app_at direct_store "")
                 {| radios := all_radios;
                    tables := tables (snd (updateFilter (app_at direct_store "")
                                             detail_document)) |}))
  = tables detail_document.
Proof.
  apply (filter_then_all_restores_the_table (app_at direct_store "")
           detail_document all_radios [] [] detail_table).
  - reflexivity.
  - reflexivity.
  - intros t [].
  - intros row [<-|[<-|[]]]; reflexivity.
  - reflexivity.
Defined.

Lemma filters_without_their_table_at_bare_page :
  updateFilter (app_at direct_store "") bare_document
  = (app_at direct_store "", bare_document)
  /\ Direct.updateHomeFilter (app_at direct_store "") bare_document
     = (app_at direct_store "", bare_document).
Proof.
  destruct (filters_without_their_table (app_at direct_store "") bare_document)
    as [Hdetail Hhome].
  split; [apply Hdetail; intros t [] | apply Hhome; reflexivity].
Defined.

Lemma init_without_metadata_at_not_ok :
  Indirect_init "" JsonNotOk NotOk (null_app "")
  = {| app := showError ("Failed to initialize application: "
                         ++ "Could not load metadata: "
                         ++ "Failed to load metadata_store.json") (null_app "");
       listening := false |}.
Proof.
  apply (init_without_metadata "" "Failed to load metadata_store.json"
           JsonNotOk JsonNotOk NotOk (null_app "") None).
  left. split; reflexivity.
Defined.

Lemma version_line_at_v1_2 :
  exists version old,
    JsonBody (Some version_record) = JsonBody (Some version)
    /\ Some "" = Some old
    /\ truthy_opt (get version "tag") = true
    /\ truthy_opt (get version "commit") = true
    /\ loadVersion (JsonBody (Some version_record)) (Some "")
       = Some (interpolate (get version "tag") ++ " ("
               ++ interpolate (get version "commit") ++ ")").
Proof.
  apply (version_line_needs_tag_and_commit (JsonBody (Some version_record)) (Some "")).
  discriminate.
Defined.

Example version_line_text :
  loadVersion (JsonBody (Some version_record)) (Some "") = Some "v1.2 (0a1b2c3)".
Proof. reflexivity. Qed.

End MoreScenarios.
